(** * Export Mesh to JSON: a shallow embedding of [MeshToJSON.execute]

    The operator of [blender-mesh-to-json.py] reads the active object of the
    host, flattens its polygons, vertices, skinning groups and UV loops into
    the dictionary [mesh_json], computes a world-space bounding box and
    prints the dictionary between two marker lines.

    Python values are modelled as follows: [int] as [Z] (as [nat] where the
    value is a length, a counter or a loop index), [float] as the IEEE-754
    values of [spec_float] (NaN, signed zeros and infinities included),
    [str] as [string], [None]-or-value as [option], a list as [list], an
    exception as a value of [PyException] carried in a sum.

    The definitions come first, then the lemmas about them, then the
    properties of the export. *)

From Stdlib Require Import List ZArith Lia Bool Ascii String SpecFloat.
From Stdlib Require Import Permutation.
Import ListNotations.

(** ** Python floats and the built-in [min] / [max] *)

Definition float : Type := spec_float.

Module PyFloat.

(** [float('inf')] and [-float('inf')]. *)
Definition inf : float := S754_infinity false.
Definition neg_inf : float := S754_infinity true.
Definition nan : float := S754_nan.

(** [a < b] and [a <= b] on floats. *)
Definition lt (a b : float) : bool := SFltb a b.
Definition le (a b : float) : bool := SFleb a b.

Definition is_nan (a : float) : bool :=
  match a with S754_nan => true | _ => false end.

(** [min(a, b)]: the built-in keeps its first argument unless the second
    compares strictly smaller. *)
Definition min (a b : float) : float := if lt b a then b else a.

(** [max(a, b)]: the built-in keeps its first argument unless the second
    compares strictly greater. *)
Definition max (a b : float) : float := if lt a b then b else a.

(** Numeric equality [a == b] (it identifies [0.0] and [-0.0]). *)
Definition eqb (a b : float) : bool := SFeqb a b.

(** A rank that orders the non-NaN floats the way [SFcompare] does:
    lexicographic on (class, exponent, mantissa), the last two negated for
    negative numbers. *)
Definition rank (a : float) : Z * Z * Z :=
  match a with
  | S754_nan => (0, 0, 0)
  | S754_infinity true => (-2, 0, 0)
  | S754_infinity false => (2, 0, 0)
  | S754_zero _ => (0, 0, 0)
  | S754_finite true m e => (-1, - e, - Z.pos m)
  | S754_finite false m e => (1, e, Z.pos m)
  end%Z.

Definition lex_lt (p q : Z * Z * Z) : Prop :=
  let '(a, b, c) := p in
  let '(a', b', c') := q in
  (a < a' \/ (a = a' /\ (b < b' \/ (b = b' /\ c < c'))))%Z.

Definition lex_compare (p q : Z * Z * Z) : comparison :=
  let '(a, b, c) := p in
  let '(a', b', c') := q in
  match (a ?= a')%Z with
  | Eq => match (b ?= b')%Z with
          | Eq => (c ?= c')%Z
          | r => r
          end
  | r => r
  end.

End PyFloat.

(** ** Exceptions and results *)

Inductive PyException : Set :=
| AttributeError
| IndexError
| TypeError
| ValueError.

Definition result (A : Type) : Type := PyException + A.

Definition ret {A} (a : A) : result A := inr a.
Definition raise {A} (e : PyException) : result A := inl e.

Definition bind {A B} (r : result A) (k : A -> result B) : result B :=
  match r with
  | inl e => inl e
  | inr a => k a
  end.

Notation "x <- r ;; k" := (bind r (fun x => k))
  (at level 61, r at next level, right associativity).

(** [o.attr] where [o] may be [None]. *)
Definition getattr {A} (o : option A) : result A :=
  match o with
  | Some a => ret a
  | None => raise AttributeError
  end.

(** [l[0]]. *)
Definition item0 {A} (l : list A) : result A :=
  match l with
  | a :: _ => ret a
  | [] => raise IndexError
  end.

(** ** [os.path.splitext]

    The library function, after [genericpath._splitext]: the extension
    starts at the last dot that lies after the last separator, unless only
    dots stand between that separator and it. *)

Module OsPath.

(** [p.rfind(c)]: the highest index holding [c], or -1. *)
Fixpoint rfind (c : ascii) (p : list ascii) : Z :=
  match p with
  | [] => -1
  | x :: r =>
      let k := rfind c r in
      if (0 <=? k)%Z then (k + 1)%Z
      else if Ascii.eqb x c then 0%Z else (-1)%Z
  end.

(** The [while filenameIndex < dotIndex] loop of [_splitext], run for the
    [todo = dotIndex - filenameIndex] positions that remain: [true] as
    soon as a character other than [extsep] is met. *)
Fixpoint has_name_before_dot (extsep : ascii) (p : list ascii)
         (filenameIndex todo : nat) : bool :=
  match todo with
  | O => false
  | S todo' =>
      if negb (Ascii.eqb (nth filenameIndex p extsep) extsep) then true
      else has_name_before_dot extsep p (S filenameIndex) todo'
  end.

Definition _splitext (p : list ascii) (sep : ascii) (altsep : option ascii)
           (extsep : ascii) : list ascii * list ascii :=
  let sepIndex := rfind sep p in
  let sepIndex :=
    match altsep with
    | Some a => Z.max sepIndex (rfind a p)
    | None => sepIndex
    end in
  let dotIndex := rfind extsep p in
  if (sepIndex <? dotIndex)%Z
     && has_name_before_dot extsep p (Z.to_nat (sepIndex + 1))
          (Z.to_nat dotIndex - Z.to_nat (sepIndex + 1))
  then (firstn (Z.to_nat dotIndex) p, skipn (Z.to_nat dotIndex) p)
  else (p, []).

(** The two implementations of [os.path]. *)
Inductive flavour : Set := posixpath | ntpath.

Definition sep (m : flavour) : ascii :=
  match m with posixpath => "/"%char | ntpath => "\"%char end.

Definition altsep (m : flavour) : option ascii :=
  match m with posixpath => None | ntpath => Some "/"%char end.

Definition extsep : ascii := "."%char.

Definition splitext (m : flavour) (p : string) : string * string :=
  let '(root, ext) := _splitext (list_ascii_of_string p) (sep m) (altsep m) extsep in
  (string_of_list_ascii root, string_of_list_ascii ext).

End OsPath.

(** ** The host's objects, as far as [execute] reads them *)

(** [mathutils.Vector] with its [x], [y], [z]. *)
Record Vector : Type := mkVector { x : float; y : float; z : float }.

(** A two-dimensional [Vector], the [uv] of a loop. *)
Record Vector2 : Type := mkVector2 { u_x : float; u_y : float }.

Module MeshPolygon.
(** A face. [vertices] holds one vertex index per loop of the face, so its
    length is the host's [loop_total]. *)
Record t : Type := mk {
  vertices : list Z;
  loop_start : nat;
  normal : Vector
}.

(** The host defines [loop_indices] as
    [range(loop_start, loop_start + loop_total)]. *)
Definition loop_indices (face : t) : list nat :=
  seq (loop_start face) (List.length (vertices face)).
End MeshPolygon.

Module VertexGroupElement.
Record t : Type := mk { group : Z; weight : float }.
End VertexGroupElement.

Module MeshVertex.
Record t : Type := mk { co : Vector; groups : list VertexGroupElement.t }.
End MeshVertex.

Module Image.
Record t : Type := mk { name : string }.
End Image.

Module MeshTexturePoly.
Record t : Type := mk { image : option Image.t }.
End MeshTexturePoly.

Module MeshTexturePolyLayer.
Record t : Type := mk { data : list MeshTexturePoly.t }.
End MeshTexturePolyLayer.

Module MeshUVLoop.
Record t : Type := mk { uv : Vector2 }.
End MeshUVLoop.

Module MeshUVLoopLayer.
Record t : Type := mk { data : list MeshUVLoop.t }.
End MeshUVLoopLayer.

Module Mesh.
(** [uv_textures] is the collection itself (truthy when it is not empty);
    [uv_textures_active] and [uv_layers_active] are the [active] members
    of the two collections, [None] when the host has none. *)
Record t : Type := mk {
  polygons : list MeshPolygon.t;
  vertices : list MeshVertex.t;
  uv_textures : list MeshTexturePolyLayer.t;
  uv_textures_active : option MeshTexturePolyLayer.t;
  uv_layers_active : option MeshUVLoopLayer.t
}.
End Mesh.

Module Parent.
Record t : Type := mk { type : string; name : string }.
End Parent.

Module Object.
(** [matrix_world] is modelled by the map [corner => matrix_world * corner]
    that the host's matrix product computes. *)
Record t : Type := mk {
  name : string;
  parent : option Parent.t;
  data : Mesh.t;
  matrix_world : Vector -> Vector;
  bound_box : list Vector
}.
End Object.

Module Bpy.
(** [bpy.context.active_object] and [bpy.data.filepath]. *)
Record t : Type := mk {
  active_object : option Object.t;
  filepath : string
}.
End Bpy.

(** Truth value of a collection. *)
Definition truthy {A} (l : list A) : bool :=
  match l with [] => false | _ :: _ => true end.

(** ** [mesh_json] *)

(** The list-valued entries of [mesh_json] while the loops of lines 67-112
    append to them. *)
Record MeshLists : Type := mkMeshLists {
  l_vertex_positions : list float;
  l_num_vertices_in_each_face : list nat;
  l_vertex_position_indices : list Z;
  l_vertex_normals : list float;
  l_vertex_normal_indices : list nat;
  l_vertex_uvs : list float;
  l_vertex_uv_indices : list nat;
  l_vertex_group_indices : list Z;
  l_vertex_group_weights : list float;
  l_num_groups_for_each_vertex : list nat
}.

Record BoundingBox : Type := mkBoundingBox {
  lower_left_front : float * float * float;
  upper_right_back : float * float * float
}.

(** The entries [0], [1] and [2] of a three-element list. *)
Definition px (p : float * float * float) : float := fst (fst p).
Definition py (p : float * float * float) : float := snd (fst p).
Definition pz (p : float * float * float) : float := snd p.

(** Two floats that are the same value, or two zeros of any signs. *)
Definition equal_or_zeros (a b : float) : Prop :=
  a = b \/ exists s s', a = S754_zero s /\ b = S754_zero s'.

Definition agree (p q : float * float * float) : Prop :=
  equal_or_zeros (px p) (px q) /\ equal_or_zeros (py p) (py q)
  /\ equal_or_zeros (pz p) (pz q).

(** Entry-wise numeric equality [p == q] of two three-element lists. *)
Definition same_point (p q : float * float * float) : bool :=
  PyFloat.eqb (px p) (px q) && PyFloat.eqb (py p) (py q)
  && PyFloat.eqb (pz p) (pz q).

(** [mesh_json] as it is serialised: the entries that lines 114-121 may
    overwrite with [None] are options. *)
Record MeshJson : Type := mkMeshJson {
  vertex_positions : list float;
  num_vertices_in_each_face : list nat;
  vertex_position_indices : list Z;
  vertex_normals : list float;
  vertex_normal_indices : list nat;
  vertex_uvs : option (list float);
  vertex_uv_indices : option (list nat);
  texture_name : option string;
  armature_name : option string;
  vertex_group_indices : option (list Z);
  vertex_group_weights : option (list float);
  num_groups_for_each_vertex : option (list nat);
  bounding_box : BoundingBox
}.

Definition empty_lists : MeshLists :=
  mkMeshLists [] [] [] [] [] [] [] [] [] [].

(** [list.append], one function per entry. *)
Definition append_vertex_positions (v : float) (m : MeshLists) : MeshLists :=
  let 'mkMeshLists a b c d e f g h i j := m in
  mkMeshLists (a ++ [v]) b c d e f g h i j.
Definition append_num_vertices_in_each_face (v : nat) (m : MeshLists) : MeshLists :=
  let 'mkMeshLists a b c d e f g h i j := m in
  mkMeshLists a (b ++ [v]) c d e f g h i j.
Definition append_vertex_position_indices (v : Z) (m : MeshLists) : MeshLists :=
  let 'mkMeshLists a b c d e f g h i j := m in
  mkMeshLists a b (c ++ [v]) d e f g h i j.
Definition append_vertex_normals (v : float) (m : MeshLists) : MeshLists :=
  let 'mkMeshLists a b c d e f g h i j := m in
  mkMeshLists a b c (d ++ [v]) e f g h i j.
Definition append_vertex_normal_indices (v : nat) (m : MeshLists) : MeshLists :=
  let 'mkMeshLists a b c d e f g h i j := m in
  mkMeshLists a b c d (e ++ [v]) f g h i j.
Definition append_vertex_uvs (v : float) (m : MeshLists) : MeshLists :=
  let 'mkMeshLists a b c d e f g h i j := m in
  mkMeshLists a b c d e (f ++ [v]) g h i j.
Definition append_vertex_uv_indices (v : nat) (m : MeshLists) : MeshLists :=
  let 'mkMeshLists a b c d e f g h i j := m in
  mkMeshLists a b c d e f (g ++ [v]) h i j.
Definition append_vertex_group_indices (v : Z) (m : MeshLists) : MeshLists :=
  let 'mkMeshLists a b c d e f g h i j := m in
  mkMeshLists a b c d e f g (h ++ [v]) i j.
Definition append_vertex_group_weights (v : float) (m : MeshLists) : MeshLists :=
  let 'mkMeshLists a b c d e f g h i j := m in
  mkMeshLists a b c d e f g h (i ++ [v]) j.
Definition append_num_groups_for_each_vertex (v : nat) (m : MeshLists) : MeshLists :=
  let 'mkMeshLists a b c d e f g h i j := m in
  mkMeshLists a b c d e f g h i (j ++ [v]).

(** ** Standard output

    [print] appends one line to the stream; a computation that raises keeps
    the lines printed before it raised. *)

Definition IO (A : Type) : Type := list string -> list string * result A.

Definition io_ret {A} (a : A) : IO A := fun out => (out, ret a).

Definition io_bind {A B} (c : IO A) (k : A -> IO B) : IO B :=
  fun out =>
    match c out with
    | (out', inl e) => (out', inl e)
    | (out', inr a) => k a out'
    end.

Definition io_lift {A} (r : result A) : IO A := fun out => (out, r).

Definition print (line : string) : IO unit := fun out => (out ++ [line], ret tt).

Notation "x <~ c ;; k" := (io_bind c (fun x => k))
  (at level 61, c at next level, right associativity).

(** ** [MeshToJSON.execute] *)

Inductive Status : Set := FINISHED.

Section Execute.

(** The [os.path] of the platform and [json.dumps] belong to the Python
    library, not to the operator. *)
Variable os_path : OsPath.flavour.
Variable json_dumps : MeshJson -> result string.

(** Lines 57-58. *)
Definition armature_name_of (mesh : Object.t) : option string :=
  match Object.parent mesh with
  | Some p =>
      if String.eqb (Parent.type p) "ARMATURE" then Some (Parent.name p)
      else None
  | None => None
  end.

(** Lines 60-62. *)
Definition texture_name_of (mesh : Object.t) : result (option string) :=
  if truthy (Mesh.uv_textures (Object.data mesh)) then
    active <- getattr (Mesh.uv_textures_active (Object.data mesh)) ;;
    poly <- item0 (MeshTexturePolyLayer.data active) ;;
    image <- getattr (MeshTexturePoly.image poly) ;;
    let texture_name := Image.name image in
    ret (Some (fst (OsPath.splitext os_path texture_name)))
  else ret None.

(** Lines 73-81, the body of [for i in range(num_vertices_in_face)]. The
    defaults of [nth] are never read: [i] is below both lengths. *)
Definition loop_body (has_uv : bool) (face : MeshPolygon.t) (index : nat)
           (m : MeshLists) (i : nat) : MeshLists :=
  let m := append_vertex_position_indices
             (nth i (MeshPolygon.vertices face) 0%Z) m in
  let m := append_vertex_normal_indices index m in
  if has_uv
  then append_vertex_uv_indices (nth i (MeshPolygon.loop_indices face) 0) m
  else m.

(** Lines 69-88, the body of [for face in mesh.data.polygons], on the pair
    of [mesh_json] and [index]. *)
Definition face_body (has_uv : bool) (st : MeshLists * nat)
           (face : MeshPolygon.t) : MeshLists * nat :=
  let '(m, index) := st in
  let num_vertices_in_face := List.length (MeshPolygon.vertices face) in
  let m := append_num_vertices_in_each_face num_vertices_in_face m in
  let m := fold_left (loop_body has_uv face index)
             (seq 0 num_vertices_in_face) m in
  let m := append_vertex_normals (x (MeshPolygon.normal face)) m in
  let m := append_vertex_normals (y (MeshPolygon.normal face)) m in
  let m := append_vertex_normals (z (MeshPolygon.normal face)) m in
  (m, S index).

(** Lines 67-88. *)
Definition flatten_faces (has_uv : bool) (faces : list MeshPolygon.t)
           (m : MeshLists) : MeshLists :=
  fst (fold_left (face_body has_uv) faces (m, 0)).

(** Lines 102-103, the body of [for group in vert.groups]. *)
Definition group_body (m : MeshLists) (group : VertexGroupElement.t)
  : MeshLists :=
  let m := append_vertex_group_indices (VertexGroupElement.group group) m in
  append_vertex_group_weights (VertexGroupElement.weight group) m.

(** Lines 94-107, the body of [for vert in mesh.data.vertices]. *)
Definition vertex_body (armature_name : option string) (m : MeshLists)
           (vert : MeshVertex.t) : MeshLists :=
  let m := append_vertex_positions (x (MeshVertex.co vert)) m in
  let m := append_vertex_positions (y (MeshVertex.co vert)) m in
  let m := append_vertex_positions (z (MeshVertex.co vert)) m in
  let num_groups := List.length (MeshVertex.groups vert) in
  let m := fold_left group_body (MeshVertex.groups vert) m in
  match armature_name with
  | Some _ => append_num_groups_for_each_vertex num_groups m
  | None => m
  end.

(** Lines 93-107. *)
Definition extract_vertices (armature_name : option string)
           (verts : list MeshVertex.t) (m : MeshLists) : MeshLists :=
  fold_left (vertex_body armature_name) verts m.

(** Lines 111-112, the body of [for loop in ...uv_layers.active.data]. *)
Definition uv_body (m : MeshLists) (loop : MeshUVLoop.t) : MeshLists :=
  let m := append_vertex_uvs (u_x (MeshUVLoop.uv loop)) m in
  append_vertex_uvs (u_y (MeshUVLoop.uv loop)) m.

(** Lines 109-112. *)
Definition collect_uvs (mesh : Object.t) (m : MeshLists) : result MeshLists :=
  if truthy (Mesh.uv_textures (Object.data mesh)) then
    layer <- getattr (Mesh.uv_layers_active (Object.data mesh)) ;;
    ret (fold_left uv_body (MeshUVLoopLayer.data layer) m)
  else ret m.

(** Lines 139-147, the body of [for corner in mesh.bound_box], on the pair
    of [lower_left_front] and [upper_right_back]. *)
Definition corner_body (matrix_world : Vector -> Vector)
           (st : (float * float * float) * (float * float * float))
           (corner : Vector)
  : (float * float * float) * (float * float * float) :=
  let '((l0, l1, l2), (u0, u1, u2)) := st in
  let corner := matrix_world corner in
  ((PyFloat.min l0 (x corner), PyFloat.min l1 (y corner),
    PyFloat.min l2 (z corner)),
   (PyFloat.max u0 (x corner), PyFloat.max u1 (y corner),
    PyFloat.max u2 (z corner))).

(** Lines 131-150. *)
Definition compute_bounding_box (mesh : Object.t) : BoundingBox :=
  let lower_left_front := (PyFloat.inf, PyFloat.inf, PyFloat.inf) in
  let upper_right_back :=
    (PyFloat.neg_inf, PyFloat.neg_inf, PyFloat.neg_inf) in
  let '(lower_left_front, upper_right_back) :=
    fold_left (corner_body (Object.matrix_world mesh))
      (Object.bound_box mesh) (lower_left_front, upper_right_back) in
  mkBoundingBox lower_left_front upper_right_back.

(** Lines 114-121 and 149-150: the entries of the finished [mesh_json]. *)
Definition assemble (armature_name texture_name : option string)
           (m : MeshLists) (bb : BoundingBox) : MeshJson :=
  let groups_kept {A} (l : list A) : option (list A) :=
    match armature_name with Some _ => Some l | None => None end in
  let uvs_kept {A} (l : list A) : option (list A) :=
    match texture_name with Some _ => Some l | None => None end in
  {| vertex_positions := l_vertex_positions m;
     num_vertices_in_each_face := l_num_vertices_in_each_face m;
     vertex_position_indices := l_vertex_position_indices m;
     vertex_normals := l_vertex_normals m;
     vertex_normal_indices := l_vertex_normal_indices m;
     vertex_uvs := uvs_kept (l_vertex_uvs m);
     vertex_uv_indices := uvs_kept (l_vertex_uv_indices m);
     texture_name := texture_name;
     armature_name := armature_name;
     vertex_group_indices := groups_kept (l_vertex_group_indices m);
     vertex_group_weights := groups_kept (l_vertex_group_weights m);
     num_groups_for_each_vertex :=
       groups_kept (l_num_groups_for_each_vertex m);
     bounding_box := bb |}.

(** Lines 37-150: [mesh_json] as it stands before the first [print]. *)
Definition build_mesh_json (mesh : Object.t) : result MeshJson :=
  let armature_name := armature_name_of mesh in
  texture_name <- texture_name_of mesh ;;
  let has_uv := truthy (Mesh.uv_textures (Object.data mesh)) in
  let m := flatten_faces has_uv (Mesh.polygons (Object.data mesh))
             empty_lists in
  let m := extract_vertices armature_name
             (Mesh.vertices (Object.data mesh)) m in
  m <- collect_uvs mesh m ;;
  ret (assemble armature_name texture_name m (compute_bounding_box mesh)).

Definition marker (tag filepath name : string) : string :=
  (tag ++ " " ++ filepath ++ " " ++ name)%string.

(** Lines 33-159. Line 34 asks the host to leave edit mode and touches
    nothing that is read below. Reading an attribute of an absent active
    object raises before anything is printed. *)
Definition execute (bpy : Bpy.t) : IO Status :=
  mesh <~ io_lift (getattr (Bpy.active_object bpy)) ;;
  mesh_json <~ io_lift (build_mesh_json mesh) ;;
  _ <~ print (marker "START_MESH_JSON" (Bpy.filepath bpy)
                (Object.name mesh)) ;;
  payload <~ io_lift (json_dumps mesh_json) ;;
  _ <~ print payload ;;
  _ <~ print (marker "END_MESH_JSON" (Bpy.filepath bpy)
                (Object.name mesh)) ;;
  io_ret FINISHED.

End Execute.

(** ** What the loops append *)

(** Entry-wise concatenation: what [mesh_json] holds after the appends
    recorded in [d] were made to [m]. *)
Definition extend (m d : MeshLists) : MeshLists :=
  let 'mkMeshLists a b c d0 e f g h i j := m in
  let 'mkMeshLists a' b' c' d0' e' f' g' h' i' j' := d in
  mkMeshLists (a ++ a') (b ++ b') (c ++ c') (d0 ++ d0') (e ++ e')
    (f ++ f') (g ++ g') (h ++ h') (i ++ i') (j ++ j').

(** The appends of the first [k] rounds of the loop over one face. *)
Definition loops_delta (has_uv : bool) (face : MeshPolygon.t) (index k : nat)
  : MeshLists :=
  mkMeshLists [] [] (firstn k (MeshPolygon.vertices face)) []
    (repeat index k) []
    (if has_uv then firstn k (MeshPolygon.loop_indices face) else [])
    [] [] [].

(** The appends of one round of the loop over the faces. *)
Definition face_delta (has_uv : bool) (face : MeshPolygon.t) (index : nat)
  : MeshLists :=
  mkMeshLists [] [List.length (MeshPolygon.vertices face)]
    (MeshPolygon.vertices face)
    [x (MeshPolygon.normal face); y (MeshPolygon.normal face);
     z (MeshPolygon.normal face)]
    (repeat index (List.length (MeshPolygon.vertices face))) []
    (if has_uv then MeshPolygon.loop_indices face else [])
    [] [] [].

Fixpoint faces_delta (has_uv : bool) (index : nat)
         (faces : list MeshPolygon.t) : MeshLists :=
  match faces with
  | [] => empty_lists
  | face :: rest =>
      extend (face_delta has_uv face index) (faces_delta has_uv (S index) rest)
  end.

(** The appends of one round of the loop over the vertices. *)
Definition vertex_delta (armature_name : option string) (vert : MeshVertex.t)
  : MeshLists :=
  mkMeshLists
    [x (MeshVertex.co vert); y (MeshVertex.co vert); z (MeshVertex.co vert)]
    [] [] [] [] [] []
    (map VertexGroupElement.group (MeshVertex.groups vert))
    (map VertexGroupElement.weight (MeshVertex.groups vert))
    (match armature_name with
     | Some _ => [List.length (MeshVertex.groups vert)]
     | None => []
     end).

Fixpoint vertices_delta (armature_name : option string)
         (verts : list MeshVertex.t) : MeshLists :=
  match verts with
  | [] => empty_lists
  | vert :: rest =>
      extend (vertex_delta armature_name vert)
        (vertices_delta armature_name rest)
  end.

Definition uvs_delta (loops : list MeshUVLoop.t) : MeshLists :=
  mkMeshLists [] [] [] [] [] 
    (flat_map (fun loop => [u_x (MeshUVLoop.uv loop); u_y (MeshUVLoop.uv loop)])
       loops)
    [] [] [] [].

(** ** The flattened streams *)

Definition face_size (face : MeshPolygon.t) : nat :=
  List.length (MeshPolygon.vertices face).

Definition normal_components (face : MeshPolygon.t) : list float :=
  [x (MeshPolygon.normal face); y (MeshPolygon.normal face);
   z (MeshPolygon.normal face)].

(** [index] repeated once per loop of the first face, [index + 1] once per
    loop of the second, and so on. *)
Fixpoint face_index_stream (index : nat) (faces : list MeshPolygon.t)
  : list nat :=
  match faces with
  | [] => []
  | face :: rest =>
      repeat index (face_size face) ++ face_index_stream (S index) rest
  end.

(** The position in the flattened loop stream at which face [i] starts. *)
Definition loop_offset (faces : list MeshPolygon.t) (i : nat) : nat :=
  list_sum (map face_size (firstn i faces)).

(** The host stores the loops of the faces one face after the other, the
    first face at [start]. *)
Fixpoint consecutive_loops (start : nat) (faces : list MeshPolygon.t) : bool :=
  match faces with
  | [] => true
  | face :: rest =>
      Nat.eqb (MeshPolygon.loop_start face) start
      && consecutive_loops (start + face_size face) rest
  end.

Definition position_components (vert : MeshVertex.t) : list float :=
  [x (MeshVertex.co vert); y (MeshVertex.co vert); z (MeshVertex.co vert)].

Definition group_indices_of (vert : MeshVertex.t) : list Z :=
  map VertexGroupElement.group (MeshVertex.groups vert).

Definition group_weights_of (vert : MeshVertex.t) : list float :=
  map VertexGroupElement.weight (MeshVertex.groups vert).

Definition group_count (vert : MeshVertex.t) : nat :=
  List.length (MeshVertex.groups vert).

(** ** The document that a successful run builds *)

Definition has_uv_textures (mesh : Object.t) : bool :=
  truthy (Mesh.uv_textures (Object.data mesh)).

(** The loops of the active UV layer, as far as line 110 reads them. *)
Definition uv_loops_of (mesh : Object.t) : list MeshUVLoop.t :=
  if has_uv_textures mesh then
    match Mesh.uv_layers_active (Object.data mesh) with
    | Some layer => MeshUVLoopLayer.data layer
    | None => []
    end
  else [].

Definition uv_components (loop : MeshUVLoop.t) : list float :=
  [u_x (MeshUVLoop.uv loop); u_y (MeshUVLoop.uv loop)].

Definition lists_of (mesh : Object.t) : MeshLists :=
  extend
    (extend
       (extend empty_lists
          (faces_delta (has_uv_textures mesh) 0
             (Mesh.polygons (Object.data mesh))))
       (vertices_delta (armature_name_of mesh)
          (Mesh.vertices (Object.data mesh))))
    (uvs_delta (uv_loops_of mesh)).

(** [mesh.data.uv_textures.active.data[0].image.name], when every link of
    the chain is there. *)
Definition active_image_name (mesh : Object.t) : option string :=
  match Mesh.uv_textures_active (Object.data mesh) with
  | Some active =>
      match MeshTexturePolyLayer.data active with
      | poly :: _ => option_map Image.name (MeshTexturePoly.image poly)
      | [] => None
      end
  | None => None
  end.

(** ** Variants of an object and of a document *)

(** [mesh] with other bounding corners, and with other faces. *)
Definition with_corners (mesh : Object.t) (corners : list Vector) : Object.t :=
  Object.mk (Object.name mesh) (Object.parent mesh) (Object.data mesh)
    (Object.matrix_world mesh) corners.

Definition with_polygons (mesh : Object.t) (faces : list MeshPolygon.t)
  : Object.t :=
  Object.mk (Object.name mesh) (Object.parent mesh)
    (Mesh.mk faces (Mesh.vertices (Object.data mesh))
       (Mesh.uv_textures (Object.data mesh))
       (Mesh.uv_textures_active (Object.data mesh))
       (Mesh.uv_layers_active (Object.data mesh)))
    (Object.matrix_world mesh) (Object.bound_box mesh).

(** [doc] with another bounding box. *)
Definition set_bounding_box (doc : MeshJson) (bb : BoundingBox) : MeshJson :=
  mkMeshJson (vertex_positions doc) (num_vertices_in_each_face doc)
    (vertex_position_indices doc) (vertex_normals doc)
    (vertex_normal_indices doc) (vertex_uvs doc) (vertex_uv_indices doc)
    (texture_name doc) (armature_name doc) (vertex_group_indices doc)
    (vertex_group_weights doc) (num_groups_for_each_vertex doc) bb.

(** The reductions of lines 131-147 over world-space corners. *)
Definition reduce_corners (world : list Vector) : BoundingBox :=
  mkBoundingBox
    (fold_left PyFloat.min (map x world) PyFloat.inf,
     fold_left PyFloat.min (map y world) PyFloat.inf,
     fold_left PyFloat.min (map z world) PyFloat.inf)
    (fold_left PyFloat.max (map x world) PyFloat.neg_inf,
     fold_left PyFloat.max (map y world) PyFloat.neg_inf,
     fold_left PyFloat.max (map z world) PyFloat.neg_inf).


(** ** Sample meshes *)

Module Samples.

(** 0.0, -0.0, 0.5, 1.0 and -0.5 as binary64 values. *)
Definition zero : float := S754_zero false.
Definition neg_zero : float := S754_zero true.
Definition half : float := S754_finite false 4503599627370496 (-53).
Definition one : float := S754_finite false 4503599627370496 (-52).
Definition neg_half : float := S754_finite true 4503599627370496 (-53).

Definition identity (v : Vector) : Vector := v.

(** The corners of the unit cube centred at the origin. *)
Definition cube_corners : list Vector :=
  [ mkVector neg_half neg_half neg_half; mkVector neg_half neg_half half;
    mkVector neg_half half half; mkVector neg_half half neg_half;
    mkVector half neg_half neg_half; mkVector half neg_half half;
    mkVector half half half; mkVector half half neg_half ].

Definition up : Vector := mkVector zero zero one.

Definition plain_vertex (a b c : float) : MeshVertex.t :=
  MeshVertex.mk (mkVector a b c) [].

(** A single quad, no texture, no parent. *)
Definition quad : Object.t :=
  Object.mk "Plane" None
    (Mesh.mk [MeshPolygon.mk [0; 1; 3; 2]%Z 0 up]
       [ plain_vertex neg_half neg_half zero; plain_vertex half neg_half zero;
         plain_vertex neg_half half zero; plain_vertex half half zero ]
       [] None None)
    identity cube_corners.

Definition quad_json : MeshJson :=
  {| vertex_positions :=
       [ neg_half; neg_half; zero; half; neg_half; zero;
         neg_half; half; zero; half; half; zero ];
     num_vertices_in_each_face := [4];
     vertex_position_indices := [0; 1; 3; 2]%Z;
     vertex_normals := [zero; zero; one];
     vertex_normal_indices := [0; 0; 0; 0];
     vertex_uvs := None;
     vertex_uv_indices := None;
     texture_name := None;
     armature_name := None;
     vertex_group_indices := None;
     vertex_group_weights := None;
     num_groups_for_each_vertex := None;
     bounding_box :=
       mkBoundingBox (neg_half, neg_half, neg_half) (half, half, half) |}.

Definition uv_loop (a b : float) : MeshUVLoop.t :=
  MeshUVLoop.mk (mkVector2 a b).

Definition wood_layer : MeshTexturePolyLayer.t :=
  MeshTexturePolyLayer.mk
    [ MeshTexturePoly.mk (Some (Image.mk "wood.png"));
      MeshTexturePoly.mk (Some (Image.mk "wood.png")) ].

Definition skinned_vertex (a b c : float)
           (groups : list (Z * float)) : MeshVertex.t :=
  MeshVertex.mk (mkVector a b c)
    (map (fun gw => VertexGroupElement.mk (fst gw) (snd gw)) groups).

(** A quad and a triangle, textured with wood.png and skinned to an
    armature; the loops of the two faces follow one another. *)
Definition banner : Object.t :=
  Object.mk "Banner"
    (Some (Parent.mk "ARMATURE" "Rig"))
    (Mesh.mk
       [ MeshPolygon.mk [0; 1; 3; 2]%Z 0 up;
         MeshPolygon.mk [2; 3; 4]%Z 4 up ]
       [ skinned_vertex neg_half neg_half zero [(0, one)]%Z;
         skinned_vertex half neg_half zero [(0, half); (1, half)]%Z;
         skinned_vertex neg_half half zero [];
         skinned_vertex half half zero [(1, one)]%Z;
         skinned_vertex zero one zero [(2, half); (0, half); (1, zero)]%Z ]
       [wood_layer] (Some wood_layer)
       (Some (MeshUVLoopLayer.mk
                [ uv_loop zero zero; uv_loop one zero; uv_loop one half;
                  uv_loop zero half; uv_loop zero half; uv_loop one half;
                  uv_loop half one ])))
    identity cube_corners.

Definition banner_json : MeshJson :=
  {| vertex_positions :=
       [ neg_half; neg_half; zero; half; neg_half; zero;
         neg_half; half; zero; half; half; zero; zero; one; zero ];
     num_vertices_in_each_face := [4; 3];
     vertex_position_indices := [0; 1; 3; 2; 2; 3; 4]%Z;
     vertex_normals := [zero; zero; one; zero; zero; one];
     vertex_normal_indices := [0; 0; 0; 0; 1; 1; 1];
     vertex_uvs :=
       Some [ zero; zero; one; zero; one; half; zero; half;
              zero; half; one; half; half; one ];
     vertex_uv_indices := Some [0; 1; 2; 3; 4; 5; 6];
     texture_name := Some "wood"%string;
     armature_name := Some "Rig"%string;
     vertex_group_indices := Some [0; 0; 1; 1; 2; 0; 1]%Z;
     vertex_group_weights := Some [one; half; half; one; half; half; zero];
     num_groups_for_each_vertex := Some [1; 2; 0; 1; 3];
     bounding_box :=
       mkBoundingBox (neg_half, neg_half, neg_half) (half, half, half) |}.

(** The banner again, with the loops of the triangle stored before those
    of the quad. *)
Definition swapped_banner : Object.t :=
  Object.mk "Banner"
    (Some (Parent.mk "ARMATURE" "Rig"))
    (Mesh.mk
       [ MeshPolygon.mk [0; 1; 3; 2]%Z 3 up;
         MeshPolygon.mk [2; 3; 4]%Z 0 up ]
       (Mesh.vertices (Object.data banner))
       [wood_layer] (Some wood_layer)
       (Some (MeshUVLoopLayer.mk
                [ uv_loop zero half; uv_loop one half; uv_loop half one;
                  uv_loop zero zero; uv_loop one zero; uv_loop one half;
                  uv_loop zero half ])))
    identity cube_corners.

Definition swapped_banner_json : MeshJson :=
  {| vertex_positions := vertex_positions banner_json;
     num_vertices_in_each_face := [4; 3];
     vertex_position_indices := [0; 1; 3; 2; 2; 3; 4]%Z;
     vertex_normals := [zero; zero; one; zero; zero; one];
     vertex_normal_indices := [0; 0; 0; 0; 1; 1; 1];
     vertex_uvs :=
       Some [ zero; half; one; half; half; one; zero; zero;
              one; zero; one; half; zero; half ];
     vertex_uv_indices := Some [3; 4; 5; 6; 0; 1; 2];
     texture_name := Some "wood"%string;
     armature_name := Some "Rig"%string;
     vertex_group_indices := vertex_group_indices banner_json;
     vertex_group_weights := vertex_group_weights banner_json;
     num_groups_for_each_vertex := num_groups_for_each_vertex banner_json;
     bounding_box := bounding_box banner_json |}.

(** The banner without its armature: the vertices keep their groups. *)
Definition loose_banner : Object.t :=
  Object.mk "Banner" None (Object.data banner) identity cube_corners.

(** The quad with a bounding corner whose x is NaN. *)
Definition nan_corner : Vector := mkVector PyFloat.nan half half.

Definition nan_quad : Object.t :=
  with_corners quad
    [ mkVector neg_half neg_half neg_half; mkVector neg_half neg_half half;
      mkVector neg_half half half; mkVector neg_half half neg_half;
      mkVector half neg_half neg_half; mkVector half neg_half half;
      nan_corner; mkVector half half neg_half ].

(** The corners of the unit cube, last to first. *)
Definition reversed_quad : Object.t := with_corners quad (rev cube_corners).

(** Two corner lists that differ in their order only. *)
Definition zero_then_neg_zero : list Vector :=
  [mkVector zero zero zero; mkVector neg_zero zero zero].
Definition neg_zero_then_zero : list Vector :=
  [mkVector neg_zero zero zero; mkVector zero zero zero].

(** The quad with three bounding corners, and with none. *)
Definition three_corner_quad : Object.t :=
  with_corners quad
    [ mkVector neg_half neg_half zero; mkVector half neg_half zero;
      mkVector half half zero ].

Definition no_corner_quad : Object.t := with_corners quad [].

Definition three_corner_json : MeshJson :=
  set_bounding_box quad_json
    (mkBoundingBox (neg_half, neg_half, zero) (half, half, zero)).

Definition no_corner_json : MeshJson :=
  set_bounding_box quad_json
    (mkBoundingBox (PyFloat.inf, PyFloat.inf, PyFloat.inf)
       (PyFloat.neg_inf, PyFloat.neg_inf, PyFloat.neg_inf)).


Definition three_corner_context : Bpy.t :=
  Bpy.mk (Some three_corner_quad) "/models/plane.blend".

Definition banner_context : Bpy.t :=
  Bpy.mk (Some banner) "/models/banner.blend".

(** A stand-in for [json.dumps] that returns a fixed text. *)
Definition dumps_text (_ : MeshJson) : result string := ret "{}"%string.

End Samples.

(** ** Well-formed references of the host's mesh *)

(** A vertex index that points into a vertex list of length [n]. *)
Definition vertex_in_range (n : nat) (i : Z) : bool :=
  (0 <=? i)%Z && (i <? Z.of_nat n)%Z.

(** Every face refers to vertices that the mesh has. *)
Definition faces_in_range (n : nat) (faces : list MeshPolygon.t) : bool :=
  forallb (fun face => forallb (vertex_in_range n) (MeshPolygon.vertices face))
    faces.

(** The loops of every face lie within a UV layer of [n] loops. *)
Definition loops_in_layer (n : nat) (faces : list MeshPolygon.t) : bool :=
  forallb
    (fun face => MeshPolygon.loop_start face + face_size face <=? n) faces.

(** The characters of a string. *)
Definition chars (s : string) : list ascii := list_ascii_of_string s.

(** What is left of a line once its first [n] characters are dropped. *)
Definition drop (n : nat) (line : string) : string :=
  substring n (String.length line - n) line.

Module MoreSamples.
Import Samples.

(** A UV texture layer whose first face has no image assigned. *)
Definition bare_layer : MeshTexturePolyLayer.t :=
  MeshTexturePolyLayer.mk
    [ MeshTexturePoly.mk None; MeshTexturePoly.mk (Some (Image.mk "wood.png")) ].

Definition with_textures (mesh : Object.t)
           (layers : list MeshTexturePolyLayer.t)
           (active : option MeshTexturePolyLayer.t)
           (uv_layer : option MeshUVLoopLayer.t) : Object.t :=
  Object.mk (Object.name mesh) (Object.parent mesh)
    (Mesh.mk (Mesh.polygons (Object.data mesh))
       (Mesh.vertices (Object.data mesh)) layers active uv_layer)
    (Object.matrix_world mesh) (Object.bound_box mesh).

(** The banner with the image of its first face removed; with a UV texture
    layer that has no faces; and with no active UV layer. *)
Definition imageless_banner : Object.t :=
  with_textures banner [bare_layer] (Some bare_layer)
    (Mesh.uv_layers_active (Object.data banner)).

Definition faceless_layer_banner : Object.t :=
  with_textures banner [MeshTexturePolyLayer.mk []]
    (Some (MeshTexturePolyLayer.mk []))
    (Mesh.uv_layers_active (Object.data banner)).

Definition layerless_banner : Object.t :=
  with_textures banner [wood_layer] (Some wood_layer) None.

(** The quad with UV loops in its active layer and no UV texture. *)
Definition untextured_quad : Object.t :=
  with_textures quad [] None (Mesh.uv_layers_active (Object.data banner)).

(** The banner with an image named wood, and with one named .png. *)
Definition named_layer (name : string) : MeshTexturePolyLayer.t :=
  MeshTexturePolyLayer.mk [MeshTexturePoly.mk (Some (Image.mk name))].

Definition renamed_banner (name : string) : Object.t :=
  with_textures banner [named_layer name] (Some (named_layer name))
    (Mesh.uv_layers_active (Object.data banner)).

(** The eight corners of the cube and one corner further out. *)
Definition far_corner : Vector := mkVector one one one.

End MoreSamples.

(** * Lemmas *)

(** ** [os.path.splitext], run *)

Example splitext_wood :
  OsPath.splitext OsPath.posixpath "wood.png" = ("wood", ".png")%string.
Proof. reflexivity. Qed.

Example splitext_hidden :
  OsPath.splitext OsPath.posixpath ".png" = (".png", "")%string.
Proof. reflexivity. Qed.

Example splitext_two_dots :
  OsPath.splitext OsPath.posixpath "archive.tar.gz"
  = ("archive.tar", ".gz")%string.
Proof. reflexivity. Qed.

Example splitext_leading_dots :
  OsPath.splitext OsPath.posixpath "..png" = ("..png", "")%string.
Proof. reflexivity. Qed.

Example splitext_nt :
  OsPath.splitext OsPath.ntpath "tex.d\wood" = ("tex.d\wood", "")%string.
Proof. reflexivity. Qed.

Example splitext_dir :
  OsPath.splitext OsPath.posixpath "a.b/c" = ("a.b/c", "")%string.
Proof. reflexivity. Qed.

(** ** The loops in closed form *)

Lemma extend_empty_r (m : MeshLists) : extend m empty_lists = m.
Proof. destruct m; simpl; now rewrite !app_nil_r. Qed.

Lemma extend_empty_l (m : MeshLists) : extend empty_lists m = m.
Proof. now destruct m. Qed.

Lemma extend_assoc (m d1 d2 : MeshLists) :
  extend (extend m d1) d2 = extend m (extend d1 d2).
Proof. destruct m, d1, d2; simpl; now rewrite <- !app_assoc. Qed.

Lemma firstn_succ_nth {A} (d : A) (l : list A) (k : nat) :
  k < List.length l -> firstn (S k) l = firstn k l ++ [nth k l d].
Proof.
  revert k; induction l as [|a l IH]; intros k Hk; simpl in Hk.
  - lia.
  - destruct k as [|k]; [reflexivity|].
    change (a :: firstn (S k) l = a :: (firstn k l ++ [nth k l d])).
    f_equal. apply IH. lia.
Qed.

Lemma loop_body_delta has_uv face index m k :
  k < List.length (MeshPolygon.vertices face) ->
  loop_body has_uv face index (extend m (loops_delta has_uv face index k)) k
  = extend m (loops_delta has_uv face index (S k)).
Proof.
  intros Hk. unfold loop_body, loops_delta.
  rewrite (firstn_succ_nth 0%Z _ k Hk).
  assert (Hr : repeat index (S k) = repeat index k ++ [index])
    by (simpl; apply repeat_cons).
  rewrite Hr.
  destruct has_uv.
  - rewrite (firstn_succ_nth 0 (MeshPolygon.loop_indices face) k)
      by (unfold MeshPolygon.loop_indices; now rewrite length_seq).
    destruct m; simpl. now rewrite !app_assoc.
  - destruct m; simpl. now rewrite !app_assoc.
Qed.

Lemma loops_closed_form has_uv face index m k :
  k <= List.length (MeshPolygon.vertices face) ->
  fold_left (loop_body has_uv face index) (seq 0 k) m
  = extend m (loops_delta has_uv face index k).
Proof.
  induction k as [|k IH]; intros Hk.
  - simpl. unfold loops_delta. simpl.
    destruct has_uv; symmetry; apply extend_empty_r.
  - rewrite seq_S, fold_left_app. simpl.
    rewrite IH by lia. apply loop_body_delta. lia.
Qed.

Lemma face_body_closed_form has_uv face index m :
  face_body has_uv (m, index) face
  = (extend m (face_delta has_uv face index), S index).
Proof.
  unfold face_body. rewrite loops_closed_form by reflexivity.
  unfold loops_delta, face_delta. rewrite !firstn_all.
  assert (Hl : firstn (List.length (MeshPolygon.vertices face))
                 (MeshPolygon.loop_indices face)
               = MeshPolygon.loop_indices face).
  { apply firstn_all2. unfold MeshPolygon.loop_indices.
    now rewrite length_seq. }
  rewrite Hl.
  destruct m; simpl. now rewrite <- !app_assoc.
Qed.

Lemma faces_closed_form has_uv faces : forall m index,
  fold_left (face_body has_uv) faces (m, index)
  = (extend m (faces_delta has_uv index faces), index + List.length faces).
Proof.
  induction faces as [|face rest IH]; intros m index; cbn [fold_left].
  - simpl. now rewrite extend_empty_r, Nat.add_0_r.
  - rewrite face_body_closed_form, IH, extend_assoc.
    cbn [faces_delta List.length]. f_equal. lia.
Qed.

Lemma flatten_faces_closed_form has_uv faces m :
  flatten_faces has_uv faces m = extend m (faces_delta has_uv 0 faces).
Proof. unfold flatten_faces. now rewrite faces_closed_form. Qed.

Lemma groups_closed_form groups : forall m,
  fold_left group_body groups m
  = extend m (mkMeshLists [] [] [] [] [] [] []
                (map VertexGroupElement.group groups)
                (map VertexGroupElement.weight groups) []).
Proof.
  induction groups as [|g rest IH]; intros m; simpl.
  - symmetry; apply extend_empty_r.
  - rewrite IH. destruct m; simpl. now rewrite <- !app_assoc.
Qed.

Lemma vertex_body_closed_form armature_name m vert :
  vertex_body armature_name m vert
  = extend m (vertex_delta armature_name vert).
Proof.
  unfold vertex_body, vertex_delta. rewrite groups_closed_form.
  destruct armature_name, m; simpl; now rewrite <- ?app_assoc, ?app_nil_r.
Qed.

Lemma extract_vertices_closed_form armature_name verts : forall m,
  extract_vertices armature_name verts m
  = extend m (vertices_delta armature_name verts).
Proof.
  unfold extract_vertices.
  induction verts as [|vert rest IH]; intros m; cbn [fold_left].
  - symmetry; apply extend_empty_r.
  - now rewrite vertex_body_closed_form, IH, extend_assoc.
Qed.

Lemma uvs_closed_form loops : forall m,
  fold_left uv_body loops m = extend m (uvs_delta loops).
Proof.
  induction loops as [|loop rest IH]; intros m; simpl.
  - symmetry; apply extend_empty_r.
  - rewrite IH. destruct m; simpl. now rewrite <- !app_assoc.
Qed.

(** ** Entries of the closed forms *)

Ltac split_extend :=
  let m := fresh "m" in
  let d := fresh "d" in
  intros m d; destruct m, d; reflexivity.

Lemma extend_vertex_positions : forall m d,
  l_vertex_positions (extend m d) = l_vertex_positions m ++ l_vertex_positions d.
Proof. split_extend. Qed.

Lemma extend_num_vertices_in_each_face : forall m d,
  l_num_vertices_in_each_face (extend m d)
  = l_num_vertices_in_each_face m ++ l_num_vertices_in_each_face d.
Proof. split_extend. Qed.

Lemma extend_vertex_position_indices : forall m d,
  l_vertex_position_indices (extend m d)
  = l_vertex_position_indices m ++ l_vertex_position_indices d.
Proof. split_extend. Qed.

Lemma extend_vertex_normals : forall m d,
  l_vertex_normals (extend m d) = l_vertex_normals m ++ l_vertex_normals d.
Proof. split_extend. Qed.

Lemma extend_vertex_normal_indices : forall m d,
  l_vertex_normal_indices (extend m d)
  = l_vertex_normal_indices m ++ l_vertex_normal_indices d.
Proof. split_extend. Qed.

Lemma extend_vertex_uvs : forall m d,
  l_vertex_uvs (extend m d) = l_vertex_uvs m ++ l_vertex_uvs d.
Proof. split_extend. Qed.

Lemma extend_vertex_uv_indices : forall m d,
  l_vertex_uv_indices (extend m d)
  = l_vertex_uv_indices m ++ l_vertex_uv_indices d.
Proof. split_extend. Qed.

Lemma extend_vertex_group_indices : forall m d,
  l_vertex_group_indices (extend m d)
  = l_vertex_group_indices m ++ l_vertex_group_indices d.
Proof. split_extend. Qed.

Lemma extend_vertex_group_weights : forall m d,
  l_vertex_group_weights (extend m d)
  = l_vertex_group_weights m ++ l_vertex_group_weights d.
Proof. split_extend. Qed.

Lemma extend_num_groups_for_each_vertex : forall m d,
  l_num_groups_for_each_vertex (extend m d)
  = l_num_groups_for_each_vertex m ++ l_num_groups_for_each_vertex d.
Proof. split_extend. Qed.

Create Rewrite HintDb entries.

#[local] Hint Rewrite
  extend_vertex_positions extend_num_vertices_in_each_face
  extend_vertex_position_indices extend_vertex_normals
  extend_vertex_normal_indices extend_vertex_uvs extend_vertex_uv_indices
  extend_vertex_group_indices extend_vertex_group_weights
  extend_num_groups_for_each_vertex : entries.

(** Induction over a list of faces or vertices, one entry at a time. *)
Ltac entry_induction l :=
  let a := fresh "a" in
  let rest := fresh "rest" in
  let IH := fresh "IH" in
  induction l as [|a rest IH]; intros;
  [ try reflexivity
  | cbn [faces_delta vertices_delta]; autorewrite with entries;
    rewrite IH; try reflexivity ].

Lemma faces_num_vertices has_uv faces : forall index,
  l_num_vertices_in_each_face (faces_delta has_uv index faces)
  = map face_size faces.
Proof. entry_induction faces. Qed.

Lemma faces_position_indices has_uv faces : forall index,
  l_vertex_position_indices (faces_delta has_uv index faces)
  = flat_map MeshPolygon.vertices faces.
Proof. entry_induction faces. Qed.

Lemma faces_normals has_uv faces : forall index,
  l_vertex_normals (faces_delta has_uv index faces)
  = flat_map normal_components faces.
Proof. entry_induction faces. Qed.

Lemma faces_normal_indices has_uv faces : forall index,
  l_vertex_normal_indices (faces_delta has_uv index faces)
  = face_index_stream index faces.
Proof. entry_induction faces. Qed.

Lemma faces_uv_indices has_uv faces : forall index,
  l_vertex_uv_indices (faces_delta has_uv index faces)
  = if has_uv then flat_map MeshPolygon.loop_indices faces else [].
Proof. entry_induction faces; now destruct has_uv. Qed.

Lemma faces_vertex_positions has_uv faces : forall index,
  l_vertex_positions (faces_delta has_uv index faces) = [].
Proof. entry_induction faces. Qed.

Lemma faces_vertex_uvs has_uv faces : forall index,
  l_vertex_uvs (faces_delta has_uv index faces) = [].
Proof. entry_induction faces. Qed.

Lemma faces_group_indices has_uv faces : forall index,
  l_vertex_group_indices (faces_delta has_uv index faces) = [].
Proof. entry_induction faces. Qed.

Lemma faces_group_weights has_uv faces : forall index,
  l_vertex_group_weights (faces_delta has_uv index faces) = [].
Proof. entry_induction faces. Qed.

Lemma faces_num_groups has_uv faces : forall index,
  l_num_groups_for_each_vertex (faces_delta has_uv index faces) = [].
Proof. entry_induction faces. Qed.

Lemma vertices_positions an verts :
  l_vertex_positions (vertices_delta an verts)
  = flat_map position_components verts.
Proof. entry_induction verts. Qed.

Lemma vertices_group_indices an verts :
  l_vertex_group_indices (vertices_delta an verts)
  = flat_map group_indices_of verts.
Proof. entry_induction verts. Qed.

Lemma vertices_group_weights an verts :
  l_vertex_group_weights (vertices_delta an verts)
  = flat_map group_weights_of verts.
Proof. entry_induction verts. Qed.

Lemma vertices_num_groups an verts :
  l_num_groups_for_each_vertex (vertices_delta an verts)
  = match an with Some _ => map group_count verts | None => [] end.
Proof. entry_induction verts; now destruct an. Qed.

Lemma vertices_num_vertices an verts :
  l_num_vertices_in_each_face (vertices_delta an verts) = [].
Proof. entry_induction verts. Qed.

Lemma vertices_position_indices an verts :
  l_vertex_position_indices (vertices_delta an verts) = [].
Proof. entry_induction verts. Qed.

Lemma vertices_normals an verts :
  l_vertex_normals (vertices_delta an verts) = [].
Proof. entry_induction verts. Qed.

Lemma vertices_normal_indices an verts :
  l_vertex_normal_indices (vertices_delta an verts) = [].
Proof. entry_induction verts. Qed.

Lemma vertices_uv_indices an verts :
  l_vertex_uv_indices (vertices_delta an verts) = [].
Proof. entry_induction verts. Qed.

Lemma vertices_uvs an verts :
  l_vertex_uvs (vertices_delta an verts) = [].
Proof. entry_induction verts. Qed.

#[local] Hint Rewrite
  faces_num_vertices faces_position_indices faces_normals
  faces_normal_indices faces_uv_indices faces_vertex_positions
  faces_vertex_uvs faces_group_indices faces_group_weights faces_num_groups
  vertices_positions vertices_group_indices vertices_group_weights
  vertices_num_groups vertices_num_vertices vertices_position_indices
  vertices_normals vertices_normal_indices vertices_uv_indices vertices_uvs
  app_nil_r app_nil_l : entries.

(** ** Unfolding a successful run *)

Lemma collect_uvs_closed_form mesh m m' :
  collect_uvs mesh m = inr m' -> m' = extend m (uvs_delta (uv_loops_of mesh)).
Proof.
  unfold collect_uvs, uv_loops_of, has_uv_textures.
  destruct (truthy (Mesh.uv_textures (Object.data mesh))).
  - destruct (Mesh.uv_layers_active (Object.data mesh)) as [layer|];
      simpl; [|discriminate].
    intros [= <-]. apply uvs_closed_form.
  - intros [= <-]. symmetry. apply extend_empty_r.
Qed.

Lemma texture_name_of_none os mesh tn :
  texture_name_of os mesh = inr tn ->
  (tn = None <-> has_uv_textures mesh = false).
Proof.
  unfold texture_name_of, has_uv_textures.
  destruct (truthy (Mesh.uv_textures (Object.data mesh))).
  - destruct (Mesh.uv_textures_active (Object.data mesh)) as [active|];
      simpl; [|discriminate].
    destruct (MeshTexturePolyLayer.data active) as [|poly ?];
      simpl; [discriminate|].
    destruct (MeshTexturePoly.image poly); simpl; [|discriminate].
    intros [= <-]. split; discriminate.
  - intros [= <-]. tauto.
Qed.

Lemma build_mesh_json_inv os mesh doc :
  build_mesh_json os mesh = inr doc ->
  exists tn,
    texture_name_of os mesh = inr tn
    /\ doc = assemble (armature_name_of mesh) tn (lists_of mesh)
               (compute_bounding_box mesh).
Proof.
  unfold build_mesh_json.
  destruct (texture_name_of os mesh) as [e|tn]; simpl; [discriminate|].
  destruct (collect_uvs mesh _) as [e|m'] eqn:Huv; simpl; [discriminate|].
  intros [= <-]. exists tn. split; [reflexivity|].
  apply collect_uvs_closed_form in Huv. subst m'.
  unfold lists_of, has_uv_textures.
  now rewrite flatten_faces_closed_form, extract_vertices_closed_form.
Qed.

(** Unfold a successful run into the entries of its document. *)
Ltac document H :=
  let tn := fresh "tn" in
  let Htn := fresh "Htn" in
  apply build_mesh_json_inv in H; destruct H as (tn & Htn & ->);
  pose proof (texture_name_of_none _ _ _ Htn);
  unfold assemble, lists_of; cbn -[extend faces_delta vertices_delta];
  autorewrite with entries.

Section Document.

Context {os : OsPath.flavour} {mesh : Object.t} {doc : MeshJson}.
Hypothesis Hrun : build_mesh_json os mesh = inr doc.

Let faces := Mesh.polygons (Object.data mesh).
Let verts := Mesh.vertices (Object.data mesh).

Lemma doc_num_vertices_in_each_face :
  num_vertices_in_each_face doc = map face_size faces.
Proof. clear verts. subst faces. document Hrun. reflexivity. Qed.

Lemma doc_vertex_position_indices :
  vertex_position_indices doc = flat_map MeshPolygon.vertices faces.
Proof. clear verts. subst faces. document Hrun. reflexivity. Qed.

Lemma doc_vertex_normals :
  vertex_normals doc = flat_map normal_components faces.
Proof. clear verts. subst faces. document Hrun. reflexivity. Qed.

Lemma doc_vertex_normal_indices :
  vertex_normal_indices doc = face_index_stream 0 faces.
Proof. clear verts. subst faces. document Hrun. reflexivity. Qed.

Lemma doc_vertex_positions :
  vertex_positions doc = flat_map position_components verts.
Proof. clear faces. subst verts. document Hrun. reflexivity. Qed.

Lemma doc_armature_name : armature_name doc = armature_name_of mesh.
Proof. clear faces verts. document Hrun. reflexivity. Qed.

Lemma doc_texture_name_none :
  texture_name doc = None <-> has_uv_textures mesh = false.
Proof. clear faces verts. document Hrun. assumption. Qed.

Lemma doc_texture_name : texture_name_of os mesh = inr (texture_name doc).
Proof. clear faces verts. document Hrun. assumption. Qed.

Lemma doc_vertex_uv_indices :
  vertex_uv_indices doc
  = if has_uv_textures mesh
    then Some (flat_map MeshPolygon.loop_indices faces) else None.
Proof.
  clear verts. subst faces. document Hrun.
  destruct tn, (has_uv_textures mesh); try reflexivity;
    intuition discriminate.
Qed.

Lemma doc_vertex_uvs :
  vertex_uvs doc
  = if has_uv_textures mesh
    then Some (flat_map uv_components (uv_loops_of mesh)) else None.
Proof.
  clear faces verts. document Hrun.
  destruct tn, (has_uv_textures mesh); try reflexivity;
    intuition discriminate.
Qed.

Lemma doc_vertex_group_indices :
  vertex_group_indices doc
  = match armature_name_of mesh with
    | Some _ => Some (flat_map group_indices_of verts)
    | None => None
    end.
Proof. clear faces. subst verts. document Hrun. reflexivity. Qed.

Lemma doc_vertex_group_weights :
  vertex_group_weights doc
  = match armature_name_of mesh with
    | Some _ => Some (flat_map group_weights_of verts)
    | None => None
    end.
Proof. clear faces. subst verts. document Hrun. reflexivity. Qed.

Lemma doc_num_groups_for_each_vertex :
  num_groups_for_each_vertex doc
  = match armature_name_of mesh with
    | Some _ => Some (map group_count verts)
    | None => None
    end.
Proof.
  clear faces. subst verts. document Hrun.
  now destruct (armature_name_of mesh).
Qed.

Lemma doc_bounding_box : bounding_box doc = compute_bounding_box mesh.
Proof. clear faces verts. document Hrun. reflexivity. Qed.

End Document.

(** ** The sample meshes, run *)

Example quad_runs :
  build_mesh_json OsPath.posixpath Samples.quad = inr Samples.quad_json.
Proof. reflexivity. Qed.

Example banner_runs :
  build_mesh_json OsPath.posixpath Samples.banner = inr Samples.banner_json.
Proof. reflexivity. Qed.

Example swapped_banner_runs :
  build_mesh_json OsPath.posixpath Samples.swapped_banner
  = inr Samples.swapped_banner_json.
Proof. reflexivity. Qed.

(** ** Lengths and positions in the flattened loop stream *)

Lemma length_flat_vertices faces :
  List.length (flat_map MeshPolygon.vertices faces)
  = list_sum (map face_size faces).
Proof.
  induction faces as [|face rest IH]; simpl; [reflexivity|].
  rewrite length_app, IH. reflexivity.
Qed.

Lemma length_face_index_stream faces : forall index,
  List.length (face_index_stream index faces) = list_sum (map face_size faces).
Proof.
  induction faces as [|face rest IH]; intros index; simpl; [reflexivity|].
  now rewrite length_app, repeat_length, IH.
Qed.

Lemma length_flat_loop_indices faces :
  List.length (flat_map MeshPolygon.loop_indices faces)
  = list_sum (map face_size faces).
Proof.
  induction faces as [|face rest IH]; simpl; [reflexivity|].
  rewrite length_app, IH. unfold MeshPolygon.loop_indices.
  now rewrite length_seq.
Qed.

Lemma length_flat_normals faces :
  List.length (flat_map normal_components faces) = 3 * List.length faces.
Proof.
  induction faces as [|face rest IH]; simpl; [reflexivity|].
  simpl in IH. rewrite IH. lia.
Qed.

Lemma nth_error_repeat_lt {A} (a : A) (n k : nat) :
  k < n -> nth_error (repeat a n) k = Some a.
Proof.
  revert k; induction n as [|n IH]; intros k Hk; [lia|].
  destruct k as [|k]; simpl; [reflexivity|]. apply IH. lia.
Qed.

Lemma face_index_stream_nth faces : forall index i face k,
  nth_error faces i = Some face ->
  k < face_size face ->
  nth_error (face_index_stream index faces) (loop_offset faces i + k)
  = Some (index + i).
Proof.
  unfold loop_offset.
  induction faces as [|face0 rest IH]; intros index i face k Hi Hk.
  - destruct i; discriminate.
  - destruct i as [|i]; simpl in Hi |- *.
    + injection Hi as ->.
      rewrite nth_error_app1 by (now rewrite repeat_length).
      rewrite Nat.add_0_r. now apply nth_error_repeat_lt.
    + rewrite nth_error_app2 by (rewrite repeat_length; lia).
      rewrite repeat_length.
      replace (face_size face0 + list_sum (map face_size (firstn i rest)) + k
               - face_size face0)
        with (list_sum (map face_size (firstn i rest)) + k) by lia.
      rewrite (IH (S index) i face k Hi Hk). f_equal. lia.
Qed.

Lemma consecutive_loops_seq faces : forall start,
  consecutive_loops start faces = true ->
  flat_map MeshPolygon.loop_indices faces
  = seq start (list_sum (map face_size faces)).
Proof.
  induction faces as [|face rest IH]; intros start H; simpl in *.
  - reflexivity.
  - apply andb_prop in H as [Hs Hr]. apply Nat.eqb_eq in Hs.
    rewrite seq_app, (IH _ Hr). unfold MeshPolygon.loop_indices.
    now rewrite Hs.
Qed.

(** ** Segments of a concatenation *)

Lemma flat_map_segment {A B} (f : A -> list B) (l : list A) : forall v a,
  nth_error l v = Some a ->
  firstn (List.length (f a))
    (skipn (list_sum (map (fun a' => List.length (f a')) (firstn v l)))
       (flat_map f l))
  = f a.
Proof.
  induction l as [|a0 rest IH]; intros v a Hv.
  - destruct v; discriminate.
  - destruct v as [|v]; simpl in Hv |- *.
    + injection Hv as ->.
      rewrite firstn_app, firstn_all, Nat.sub_diag. simpl.
      apply app_nil_r.
    + rewrite skipn_app, skipn_all2 by lia. simpl.
      replace (List.length (f a0)
               + list_sum (map (fun a' => List.length (f a')) (firstn v rest))
               - List.length (f a0))
        with (list_sum (map (fun a' => List.length (f a')) (firstn v rest)))
        by lia.
      now apply IH.
Qed.

Lemma length_flat_map_sum {A B} (f : A -> list B) (l : list A) :
  List.length (flat_map f l)
  = list_sum (map (fun a => List.length (f a)) l).
Proof.
  induction l as [|a rest IH]; simpl; [reflexivity|].
  now rewrite length_app, IH.
Qed.

Lemma group_indices_size vert :
  List.length (group_indices_of vert) = group_count vert.
Proof. apply length_map. Qed.

Lemma group_weights_size vert :
  List.length (group_weights_of vert) = group_count vert.
Proof. apply length_map. Qed.

(** ** Order of the floats that are not NaN *)

Module PyFloatFacts.
Import PyFloat.

Lemma lex_compare_spec p q :
  CompareSpec (p = q) (lex_lt p q) (lex_lt q p) (lex_compare p q).
Proof.
  destruct p as [[a b] c], q as [[a' b'] c']. unfold lex_compare, lex_lt.
  destruct (Z.compare_spec a a'); [|constructor; lia|constructor; lia].
  destruct (Z.compare_spec b b'); [|constructor; lia|constructor; lia].
  destruct (Z.compare_spec c c'); constructor; subst;
    [reflexivity | lia | lia].
Qed.

Lemma lex_lt_irrefl p : ~ lex_lt p p.
Proof. destruct p as [[a b] c]. unfold lex_lt. lia. Qed.

Lemma lex_lt_trans p q r : lex_lt p q -> lex_lt q r -> lex_lt p r.
Proof.
  destruct p as [[a b] c], q as [[a' b'] c'], r as [[a'' b''] c''].
  unfold lex_lt. lia.
Qed.

Lemma compare_rank a b :
  is_nan a = false -> is_nan b = false ->
  SFcompare a b = Some (lex_compare (rank a) (rank b)).
Proof.
  destruct a as [sa|sa| |sa ma ea], b as [sb|sb| |sb mb eb];
    try discriminate; intros _ _;
    try (destruct sa; reflexivity); try (destruct sb; reflexivity);
    try (destruct sa, sb; reflexivity).
  destruct sa, sb; try reflexivity.
  cbn [SFcompare rank lex_compare]. rewrite Z.compare_opp.
  cbn [Z.compare]. rewrite (Z.compare_antisym eb ea).
  destruct (eb ?= ea)%Z; reflexivity.
Qed.

Lemma lt_rank a b :
  is_nan a = false -> is_nan b = false ->
  (lt a b = true <-> lex_lt (rank a) (rank b)).
Proof.
  intros Ha Hb. unfold lt, SFltb. rewrite (compare_rank _ _ Ha Hb).
  destruct (lex_compare_spec (rank a) (rank b)) as [E|L|G];
    split; intros H; try discriminate; try reflexivity; try assumption.
  - rewrite E in H. now apply lex_lt_irrefl in H.
  - exfalso. exact (lex_lt_irrefl _ (lex_lt_trans _ _ _ H G)).
Qed.

Lemma le_rank a b :
  is_nan a = false -> is_nan b = false ->
  (le a b = true <-> lex_lt (rank a) (rank b) \/ rank a = rank b).
Proof.
  intros Ha Hb. unfold le, SFleb. rewrite (compare_rank _ _ Ha Hb).
  destruct (lex_compare_spec (rank a) (rank b)) as [E|L|G];
    split; intros H; try discriminate; try reflexivity; auto.
  exfalso. destruct H as [H|H].
  - exact (lex_lt_irrefl _ (lex_lt_trans _ _ _ H G)).
  - rewrite H in G. now apply lex_lt_irrefl in G.
Qed.

Lemma eqb_rank a b :
  is_nan a = false -> is_nan b = false ->
  (eqb a b = true <-> rank a = rank b).
Proof.
  intros Ha Hb. unfold eqb, SFeqb. rewrite (compare_rank _ _ Ha Hb).
  destruct (lex_compare_spec (rank a) (rank b)) as [E|L|G];
    split; intros H; try discriminate; try reflexivity; auto.
  - rewrite H in L. now apply lex_lt_irrefl in L.
  - rewrite H in G. now apply lex_lt_irrefl in G.
Qed.

(** Numerically equal floats differ at most in the sign of a zero. *)
Lemma eqb_equal_or_zeros a b :
  is_nan a = false -> is_nan b = false ->
  eqb a b = true -> equal_or_zeros a b.
Proof.
  intros Ha Hb H. apply (eqb_rank _ _ Ha Hb) in H.
  destruct a as [sa|sa| |sa ma ea], b as [sb|sb| |sb mb eb];
    try discriminate;
    try (destruct sa; discriminate); try (destruct sb; discriminate);
    try (destruct sa, sb; discriminate).
  - right. now exists sa, sb.
  - left. destruct sa, sb; (reflexivity || discriminate).
  - left. destruct sa, sb; try discriminate; simpl in H;
      injection H as He Hm; f_equal; lia.
Qed.

Lemma lt_nan_r a : lt a nan = false.
Proof. now destruct a as [[]|[]| |[]]. Qed.

Lemma lt_nan_l a : lt nan a = false.
Proof. reflexivity. Qed.

Lemma le_nan_r a : le a nan = false.
Proof. now destruct a as [[]|[]| |[]]. Qed.

Lemma le_refl a : is_nan a = false -> le a a = true.
Proof. intros Ha. apply le_rank; auto. Qed.

Lemma le_trans a b c :
  is_nan a = false -> is_nan b = false -> is_nan c = false ->
  le a b = true -> le b c = true -> le a c = true.
Proof.
  intros Ha Hb Hc Hab Hbc.
  apply le_rank in Hab; [|assumption..].
  apply le_rank in Hbc; [|assumption..].
  apply le_rank; [assumption..|].
  destruct Hab as [Hab|Hab], Hbc as [Hbc|Hbc].
  - left. eapply lex_lt_trans; eassumption.
  - left. now rewrite <- Hbc.
  - left. now rewrite Hab.
  - right. congruence.
Qed.

Lemma le_antisym a b :
  is_nan a = false -> is_nan b = false ->
  le a b = true -> le b a = true -> eqb a b = true.
Proof.
  intros Ha Hb Hab Hba.
  apply le_rank in Hab; [|assumption..].
  apply le_rank in Hba; [|assumption..].
  apply eqb_rank; [assumption..|].
  destruct Hab as [Hab|Hab]; [|assumption].
  destruct Hba as [Hba|Hba]; [|congruence].
  exfalso. exact (lex_lt_irrefl _ (lex_lt_trans _ _ _ Hab Hba)).
Qed.

(** Without NaN, [not (b < a)] is [a <= b]. *)
Lemma not_lt_le a b :
  is_nan a = false -> is_nan b = false ->
  lt b a = false -> le a b = true.
Proof.
  intros Ha Hb Hlt. apply le_rank; [assumption..|].
  destruct (lex_compare_spec (rank a) (rank b)) as [E|L|G]; auto.
  apply (lt_rank _ _ Hb Ha) in G. congruence.
Qed.

Lemma lt_le a b :
  is_nan a = false -> is_nan b = false ->
  lt a b = true -> le a b = true.
Proof.
  intros Ha Hb Hlt. apply le_rank; [assumption..|].
  left. now apply lt_rank.
Qed.

Lemma lt_not_nan a b : lt a b = true -> is_nan a = false /\ is_nan b = false.
Proof.
  destruct a, b; try discriminate; auto.
Qed.

Lemma le_inf a : is_nan a = false -> le a inf = true.
Proof. now destruct a as [[]|[]| |[]]. Qed.

Lemma le_neg_inf a : is_nan a = false -> le neg_inf a = true.
Proof. now destruct a as [[]|[]| |[]]. Qed.

End PyFloatFacts.

(** ** The reductions with [min] and [max] *)

Module Reduction.
Import PyFloat PyFloatFacts.

Lemma min_cases a b : min a b = a \/ min a b = b.
Proof. unfold min. destruct (lt b a); auto. Qed.

Lemma max_cases a b : max a b = a \/ max a b = b.
Proof. unfold max. destruct (lt a b); auto. Qed.

Lemma min_not_nan a b : is_nan a = false -> is_nan (min a b) = false.
Proof.
  intros Ha. unfold min. destruct (lt b a) eqn:E; [|assumption].
  now apply lt_not_nan in E.
Qed.

Lemma max_not_nan a b : is_nan a = false -> is_nan (max a b) = false.
Proof.
  intros Ha. unfold max. destruct (lt a b) eqn:E; [|assumption].
  now apply lt_not_nan in E.
Qed.

Lemma min_le_l a b : is_nan a = false -> le (min a b) a = true.
Proof.
  intros Ha. unfold min. destruct (lt b a) eqn:E.
  - apply lt_le; [apply (lt_not_nan _ _ E)..|exact E].
  - now apply le_refl.
Qed.

Lemma min_le_r a b :
  is_nan a = false -> is_nan b = false -> le (min a b) b = true.
Proof.
  intros Ha Hb. unfold min. destruct (lt b a) eqn:E.
  - now apply le_refl.
  - now apply not_lt_le.
Qed.

Lemma max_ge_l a b : is_nan a = false -> le a (max a b) = true.
Proof.
  intros Ha. unfold max. destruct (lt a b) eqn:E.
  - apply lt_le; [apply (lt_not_nan _ _ E)..|exact E].
  - now apply le_refl.
Qed.

Lemma max_ge_r a b :
  is_nan a = false -> is_nan b = false -> le b (max a b) = true.
Proof.
  intros Ha Hb. unfold max. destruct (lt a b) eqn:E.
  - now apply le_refl.
  - now apply not_lt_le.
Qed.

(** The running minimum is never NaN, is the start value or one of the
    elements, and lies below the start value and every element that is not
    NaN. *)
Lemma fold_min xs : forall init,
  is_nan init = false ->
  let r := fold_left min xs init in
  is_nan r = false
  /\ (r = init \/ In r xs)
  /\ le r init = true
  /\ forall a, In a xs -> is_nan a = false -> le r a = true.
Proof.
  induction xs as [|b rest IH]; intros init Hinit; cbn [fold_left].
  - repeat split; auto using le_refl; try (intros a []); contradiction.
  - pose proof (min_not_nan init b Hinit) as Hm.
    destruct (IH (min init b) Hm) as (Hr & Hin & Hle & Hall).
    repeat split.
    + exact Hr.
    + destruct Hin as [->|Hin]; [|right; now right].
      destruct (min_cases init b) as [->| ->]; [now left | right; now left].
    + apply (le_trans _ (min init b)); auto using min_le_l.
    + intros a [<-|Ha] Hnan; [|now apply Hall].
      apply (le_trans _ (min init b)); auto using min_le_r.
Qed.

Lemma fold_max xs : forall init,
  is_nan init = false ->
  let r := fold_left max xs init in
  is_nan r = false
  /\ (r = init \/ In r xs)
  /\ le init r = true
  /\ forall a, In a xs -> is_nan a = false -> le a r = true.
Proof.
  induction xs as [|b rest IH]; intros init Hinit; cbn [fold_left].
  - repeat split; auto using le_refl; try (intros a []); contradiction.
  - pose proof (max_not_nan init b Hinit) as Hm.
    destruct (IH (max init b) Hm) as (Hr & Hin & Hle & Hall).
    repeat split.
    + exact Hr.
    + destruct Hin as [->|Hin]; [|right; now right].
      destruct (max_cases init b) as [->| ->]; [now left | right; now left].
    + apply (le_trans _ (max init b)); auto using max_ge_l.
    + intros a [<-|Ha] Hnan; [|now apply Hall].
      apply (le_trans _ (max init b)); auto using max_ge_r.
Qed.

Lemma fold_min_lower xs init a :
  is_nan init = false -> In a xs -> is_nan a = false ->
  le (fold_left min xs init) a = true.
Proof. intros Hinit. now apply (fold_min xs init Hinit). Qed.

Lemma fold_max_upper xs init a :
  is_nan init = false -> In a xs -> is_nan a = false ->
  le a (fold_left max xs init) = true.
Proof. intros Hinit. now apply (fold_max xs init Hinit). Qed.

Lemma fold_min_le xs xs' init :
  is_nan init = false ->
  (forall a, In a xs' -> In a xs) ->
  le (fold_left min xs init) (fold_left min xs' init) = true.
Proof.
  intros Hinit Hsub.
  destruct (fold_min xs init Hinit) as (Hr & _ & Hle & Hall).
  destruct (fold_min xs' init Hinit) as (Hr' & [->|Hin] & _ & _).
  - exact Hle.
  - apply Hall; [now apply Hsub | exact Hr'].
Qed.

Lemma fold_max_le xs xs' init :
  is_nan init = false ->
  (forall a, In a xs' -> In a xs) ->
  le (fold_left max xs' init) (fold_left max xs init) = true.
Proof.
  intros Hinit Hsub.
  destruct (fold_max xs init Hinit) as (Hr & _ & Hle & Hall).
  destruct (fold_max xs' init Hinit) as (Hr' & [->|Hin] & _ & _).
  - exact Hle.
  - apply Hall; [now apply Hsub | exact Hr'].
Qed.

Lemma fold_min_permutation xs xs' init :
  is_nan init = false -> Permutation xs xs' ->
  eqb (fold_left min xs init) (fold_left min xs' init) = true.
Proof.
  intros Hinit Hperm.
  apply le_antisym;
    [exact (proj1 (fold_min xs init Hinit))
    |exact (proj1 (fold_min xs' init Hinit)) | |].
  - apply fold_min_le; [assumption|]. intros a.
    apply Permutation_in. now symmetry.
  - apply fold_min_le; [assumption|]. intros a.
    now apply Permutation_in.
Qed.

Lemma fold_max_permutation xs xs' init :
  is_nan init = false -> Permutation xs xs' ->
  eqb (fold_left max xs init) (fold_left max xs' init) = true.
Proof.
  intros Hinit Hperm.
  apply le_antisym;
    [exact (proj1 (fold_max xs init Hinit))
    |exact (proj1 (fold_max xs' init Hinit)) | |].
  - apply fold_max_le; [assumption|]. intros a.
    now apply Permutation_in.
  - apply fold_max_le; [assumption|]. intros a.
    apply Permutation_in. now symmetry.
Qed.

Lemma fold_min_permutation_agree xs xs' init :
  is_nan init = false -> Permutation xs xs' ->
  equal_or_zeros (fold_left min xs init) (fold_left min xs' init).
Proof.
  intros Hinit Hperm. apply eqb_equal_or_zeros.
  - exact (proj1 (fold_min xs init Hinit)).
  - exact (proj1 (fold_min xs' init Hinit)).
  - now apply fold_min_permutation.
Qed.

Lemma fold_max_permutation_agree xs xs' init :
  is_nan init = false -> Permutation xs xs' ->
  equal_or_zeros (fold_left max xs init) (fold_left max xs' init).
Proof.
  intros Hinit Hperm. apply eqb_equal_or_zeros.
  - exact (proj1 (fold_max xs init Hinit)).
  - exact (proj1 (fold_max xs' init Hinit)).
  - now apply fold_max_permutation.
Qed.

End Reduction.

(** The loop over the corners is six independent reductions. *)
Lemma corners_closed_form matrix_world corners : forall l0 l1 l2 u0 u1 u2,
  let world := map matrix_world corners in
  fold_left (corner_body matrix_world) corners ((l0, l1, l2), (u0, u1, u2))
  = ((fold_left PyFloat.min (map x world) l0,
      fold_left PyFloat.min (map y world) l1,
      fold_left PyFloat.min (map z world) l2),
     (fold_left PyFloat.max (map x world) u0,
      fold_left PyFloat.max (map y world) u1,
      fold_left PyFloat.max (map z world) u2)).
Proof.
  induction corners as [|corner rest IH]; intros; [reflexivity|].
  subst world. cbn [fold_left map corner_body]. apply IH.
Qed.

Lemma compute_bounding_box_closed_form mesh :
  let world := map (Object.matrix_world mesh) (Object.bound_box mesh) in
  compute_bounding_box mesh
  = mkBoundingBox
      (fold_left PyFloat.min (map x world) PyFloat.inf,
       fold_left PyFloat.min (map y world) PyFloat.inf,
       fold_left PyFloat.min (map z world) PyFloat.inf)
      (fold_left PyFloat.max (map x world) PyFloat.neg_inf,
       fold_left PyFloat.max (map y world) PyFloat.neg_inf,
       fold_left PyFloat.max (map z world) PyFloat.neg_inf).
Proof.
  unfold compute_bounding_box. now rewrite corners_closed_form.
Qed.

(** ** The outcomes of [execute] *)



Lemma execute_finishes os json_dumps bpy mesh doc payload :
  Bpy.active_object bpy = Some mesh ->
  build_mesh_json os mesh = inr doc ->
  json_dumps doc = inr payload ->
  execute os json_dumps bpy []
  = ([marker "START_MESH_JSON" (Bpy.filepath bpy) (Object.name mesh);
      payload;
      marker "END_MESH_JSON" (Bpy.filepath bpy) (Object.name mesh)],
     inr FINISHED).
Proof.
  intros Hm Hb Hd. unfold execute, io_bind, io_lift, print, io_ret.
  rewrite Hm. simpl. rewrite Hb. simpl. now rewrite Hd.
Qed.

(** ** What the outcome of the run depends on *)

Lemma texture_name_of_with_corners os mesh corners :
  texture_name_of os (with_corners mesh corners) = texture_name_of os mesh.
Proof. reflexivity. Qed.

Lemma texture_name_of_with_polygons os mesh faces :
  texture_name_of os (with_polygons mesh faces) = texture_name_of os mesh.
Proof. reflexivity. Qed.

Lemma compute_bounding_box_reduce mesh :
  compute_bounding_box mesh
  = reduce_corners (map (Object.matrix_world mesh) (Object.bound_box mesh)).
Proof. apply compute_bounding_box_closed_form. Qed.

(** A run raises in the lookups of lines 61 and 110 or not at all. *)
Lemma build_mesh_json_outcome os mesh :
  build_mesh_json os mesh
  = match texture_name_of os mesh with
    | inl e => inl e
    | inr tn =>
        if has_uv_textures mesh then
          match Mesh.uv_layers_active (Object.data mesh) with
          | None => inl AttributeError
          | Some _ =>
              inr (assemble (armature_name_of mesh) tn (lists_of mesh)
                     (compute_bounding_box mesh))
          end
        else inr (assemble (armature_name_of mesh) tn (lists_of mesh)
                    (compute_bounding_box mesh))
    end.
Proof.
  unfold build_mesh_json, collect_uvs, lists_of, uv_loops_of, has_uv_textures.
  destruct (texture_name_of os mesh) as [e|tn]; simpl; [reflexivity|].
  rewrite flatten_faces_closed_form, extract_vertices_closed_form.
  destruct (truthy (Mesh.uv_textures (Object.data mesh))).
  - destruct (Mesh.uv_layers_active (Object.data mesh)); simpl;
      [|reflexivity].
    now rewrite uvs_closed_form.
  - simpl. change (uvs_delta []) with empty_lists.
    now rewrite extend_empty_r.
Qed.

(** ** [rfind] and [splitext] *)

Module OsPathFacts.
Import OsPath.

Lemma rfind_lower c p : (-1 <= rfind c p)%Z.
Proof.
  induction p as [|a r IH]; simpl; [lia|].
  destruct (0 <=? rfind c r)%Z eqn:E; [lia|].
  destruct (Ascii.eqb a c); lia.
Qed.

Lemma rfind_absent c p : (rfind c p < 0)%Z -> ~ In c p.
Proof.
  induction p as [|a r IH]; simpl; [tauto|].
  destruct (0 <=? rfind c r)%Z eqn:E.
  - apply Z.leb_le in E. lia.
  - apply Z.leb_gt in E.
    destruct (Ascii.eqb a c) eqn:Eac; [lia|].
    apply Ascii.eqb_neq in Eac. intros _ [H|H]; [congruence|].
    now apply IH.
Qed.

(** The index that [rfind] returns holds [c], and [c] does not occur
    after it. *)
Lemma rfind_found c p : forall k,
  rfind c p = Z.of_nat k ->
  skipn k p = c :: skipn (S k) p /\ ~ In c (skipn (S k) p).
Proof.
  induction p as [|a r IH]; intros k; simpl rfind.
  - lia.
  - destruct (0 <=? rfind c r)%Z eqn:E.
    + apply Z.leb_le in E. intros Hk.
      destruct k as [|k]; [lia|].
      apply (IH k). lia.
    + apply Z.leb_gt in E.
      destruct (Ascii.eqb a c) eqn:Eac; [|lia].
      apply Ascii.eqb_eq in Eac. subst a. intros Hk.
      destruct k as [|k]; [|lia]. simpl.
      split; [reflexivity|]. now apply rfind_absent.
Qed.

Lemma _splitext_parts p sep altsep ext_sep root ext :
  _splitext p sep altsep ext_sep = (root, ext) ->
  p = root ++ ext
  /\ (ext = [] \/ exists e, ext = ext_sep :: e /\ ~ In ext_sep e).
Proof.
  unfold _splitext.
  set (sepIndex := match altsep with
                   | Some a => Z.max (rfind sep p) (rfind a p)
                   | None => rfind sep p
                   end).
  assert (Hsep : (-1 <= sepIndex)%Z).
  { subst sepIndex. pose proof (rfind_lower sep p).
    destruct altsep; lia. }
  destruct ((sepIndex <? rfind ext_sep p)%Z
            && has_name_before_dot ext_sep p (Z.to_nat (sepIndex + 1))
                 (Z.to_nat (rfind ext_sep p) - Z.to_nat (sepIndex + 1)))
    eqn:E.
  - intros [= <- <-]. split; [symmetry; apply firstn_skipn|].
    right. apply andb_prop in E as [E _]. apply Z.ltb_lt in E.
    destruct (rfind_found ext_sep p (Z.to_nat (rfind ext_sep p)))
      as (Hk & Hno); [lia|].
    eexists. split; [exact Hk | exact Hno].
  - intros [= <- <-]. split; [symmetry; apply app_nil_r | now left].
Qed.

Lemma string_of_list_ascii_app a b :
  string_of_list_ascii (a ++ b)
  = (string_of_list_ascii a ++ string_of_list_ascii b)%string.
Proof. induction a as [|c a IH]; simpl; [reflexivity | now rewrite IH]. Qed.

Lemma splitext_parts m p root ext :
  splitext m p = (root, ext) ->
  p = (root ++ ext)%string
  /\ (ext = ""%string
      \/ exists e, ext = String "." e
                   /\ ~ In "."%char (list_ascii_of_string e)).
Proof.
  unfold splitext.
  destruct (_splitext (list_ascii_of_string p) (sep m) (altsep m) extsep)
    as [lroot lext] eqn:E.
  intros [= <- <-].
  destruct (_splitext_parts _ _ _ _ _ _ E) as (Happ & Hext). split.
  - rewrite <- string_of_list_ascii_app, <- Happ.
    symmetry. apply string_of_list_ascii_of_string.
  - destruct Hext as [->|(e & -> & Hno)]; [now left|].
    right. exists (string_of_list_ascii e). split; [reflexivity|].
    now rewrite list_ascii_of_string_of_list_ascii.
Qed.

End OsPathFacts.

Lemma texture_name_of_active os mesh tn :
  texture_name_of os mesh = inr tn ->
  has_uv_textures mesh = true ->
  exists raw,
    active_image_name mesh = Some raw
    /\ tn = Some (fst (OsPath.splitext os raw)).
Proof.
  unfold texture_name_of, has_uv_textures, active_image_name.
  intros H Huv. rewrite Huv in H.
  destruct (Mesh.uv_textures_active (Object.data mesh)) as [active|];
    simpl in H; [|discriminate].
  destruct (MeshTexturePolyLayer.data active) as [|poly ?];
    simpl in H; [discriminate|].
  destruct (MeshTexturePoly.image poly) as [image|]; simpl in H;
    [|discriminate].
  injection H as <-. now exists (Image.name image).
Qed.

(** ** Positions in the flattened vertex and normal arrays *)

Lemma position_components_nth verts : forall v vert,
  nth_error verts v = Some vert ->
  nth_error (flat_map position_components verts) (3 * v)
  = Some (x (MeshVertex.co vert))
  /\ nth_error (flat_map position_components verts) (3 * v + 1)
     = Some (y (MeshVertex.co vert))
  /\ nth_error (flat_map position_components verts) (3 * v + 2)
     = Some (z (MeshVertex.co vert)).
Proof.
  induction verts as [|vert0 rest IH]; intros v vert Hv.
  - destruct v; discriminate.
  - destruct v as [|v].
    + injection Hv as ->. now repeat split.
    + replace (3 * S v) with (S (S (S (3 * v)))) by lia.
      exact (IH v vert Hv).
Qed.

Lemma length_flat_positions verts :
  List.length (flat_map position_components verts) = 3 * List.length verts.
Proof.
  induction verts as [|vert rest IH]; [reflexivity|].
  cbn [flat_map position_components List.length app]. rewrite IH. lia.
Qed.

Lemma face_index_stream_bounds faces : forall index n,
  In n (face_index_stream index faces) ->
  index <= n < index + List.length faces.
Proof.
  induction faces as [|face rest IH]; intros index n Hin; simpl in Hin.
  - contradiction.
  - apply in_app_or in Hin as [Hin|Hin].
    + apply repeat_spec in Hin. subst n. simpl. lia.
    + apply IH in Hin. simpl. lia.
Qed.

Lemma faces_in_range_spec n faces e :
  faces_in_range n faces = true ->
  In e (flat_map MeshPolygon.vertices faces) ->
  (0 <= e < Z.of_nat n)%Z.
Proof.
  unfold faces_in_range. rewrite forallb_forall. intros Hall Hin.
  apply in_flat_map in Hin as (face & Hface & He).
  specialize (Hall face Hface). rewrite forallb_forall in Hall.
  specialize (Hall e He). unfold vertex_in_range in Hall.
  apply andb_prop in Hall as [H0 Hn].
  apply Z.leb_le in H0. apply Z.ltb_lt in Hn. lia.
Qed.

(** ** The UV arrays *)

Lemma uv_components_nth loops : forall l loop,
  nth_error loops l = Some loop ->
  nth_error (flat_map uv_components loops) (2 * l)
  = Some (u_x (MeshUVLoop.uv loop))
  /\ nth_error (flat_map uv_components loops) (2 * l + 1)
     = Some (u_y (MeshUVLoop.uv loop)).
Proof.
  induction loops as [|loop0 rest IH]; intros l loop Hl.
  - destruct l; discriminate.
  - destruct l as [|l].
    + injection Hl as ->. now split.
    + replace (2 * S l) with (S (S (2 * l))) by lia.
      exact (IH l loop Hl).
Qed.

Lemma length_flat_uvs loops :
  List.length (flat_map uv_components loops) = 2 * List.length loops.
Proof.
  induction loops as [|loop rest IH]; [reflexivity|].
  cbn [flat_map uv_components List.length app]. rewrite IH. lia.
Qed.

Lemma loops_in_layer_spec n faces i :
  loops_in_layer n faces = true ->
  In i (flat_map MeshPolygon.loop_indices faces) ->
  i < n.
Proof.
  unfold loops_in_layer. rewrite forallb_forall. intros Hall Hin.
  apply in_flat_map in Hin as (face & Hface & Hi).
  specialize (Hall face Hface). apply Nat.leb_le in Hall.
  unfold MeshPolygon.loop_indices in Hi. apply in_seq in Hi.
  unfold face_size in Hall. lia.
Qed.

(** A run that builds a document for a mesh with UV textures has found an
    active UV layer. *)
Lemma built_with_uv_layer os mesh doc :
  build_mesh_json os mesh = inr doc ->
  has_uv_textures mesh = true ->
  exists layer,
    Mesh.uv_layers_active (Object.data mesh) = Some layer
    /\ uv_loops_of mesh = MeshUVLoopLayer.data layer.
Proof.
  rewrite build_mesh_json_outcome. intros Hrun Huv.
  unfold uv_loops_of. rewrite Huv in *.
  destruct (texture_name_of os mesh); [discriminate|].
  destruct (Mesh.uv_layers_active (Object.data mesh)) as [layer|];
    [|discriminate].
  now exists layer.
Qed.

(** ** The lookups that can raise *)

Lemma texture_name_of_outcome os mesh :
  texture_name_of os mesh
  = if has_uv_textures mesh then
      match Mesh.uv_textures_active (Object.data mesh) with
      | None => inl AttributeError
      | Some active =>
          match MeshTexturePolyLayer.data active with
          | [] => inl IndexError
          | poly :: _ =>
              match MeshTexturePoly.image poly with
              | None => inl AttributeError
              | Some image =>
                  inr (Some (fst (OsPath.splitext os (Image.name image))))
              end
          end
      end
    else inr None.
Proof.
  unfold texture_name_of, has_uv_textures.
  destruct (truthy (Mesh.uv_textures (Object.data mesh))); [|reflexivity].
  destruct (Mesh.uv_textures_active (Object.data mesh)) as [active|];
    [|reflexivity].
  simpl. destruct (MeshTexturePolyLayer.data active) as [|poly rest];
    [reflexivity|].
  simpl. now destruct (MeshTexturePoly.image poly).
Qed.

(** Split a hypothesis made of alternatives and close each one by
    congruence. *)
Ltac decompose_cases H :=
  repeat match type of H with
         | _ \/ _ => destruct H as [H|H]
         end;
  repeat match goal with
         | H' : exists _, _ |- _ => destruct H' as (? & H')
         | H' : _ /\ _ |- _ => destruct H' as (? & H')
         end;
  subst; simpl in *; congruence.

(** ** More on the reductions *)

Module ReductionEdges.
Import PyFloat PyFloatFacts Reduction.

Lemma is_nan_true a : is_nan a = true -> a = nan.
Proof. destruct a; (discriminate || reflexivity). Qed.

Lemma fold_min_all_nan xs : forall init,
  (forall a, In a xs -> is_nan a = true) ->
  fold_left min xs init = init.
Proof.
  induction xs as [|b rest IH]; intros init Hall; [reflexivity|].
  cbn [fold_left]. rewrite (is_nan_true b) by (apply Hall; now left).
  unfold min at 2. rewrite lt_nan_l. apply IH.
  intros a Ha. apply Hall. now right.
Qed.

Lemma fold_max_all_nan xs : forall init,
  (forall a, In a xs -> is_nan a = true) ->
  fold_left max xs init = init.
Proof.
  induction xs as [|b rest IH]; intros init Hall; [reflexivity|].
  cbn [fold_left]. rewrite (is_nan_true b) by (apply Hall; now left).
  unfold max at 2. rewrite lt_nan_r. apply IH.
  intros a Ha. apply Hall. now right.
Qed.

Lemma fold_min_le_fold_max xs a :
  In a xs -> is_nan a = false ->
  le (fold_left min xs inf) (fold_left max xs neg_inf) = true.
Proof.
  intros Hin Ha.
  apply (le_trans _ a).
  - exact (proj1 (fold_min xs inf eq_refl)).
  - exact Ha.
  - exact (proj1 (fold_max xs neg_inf eq_refl)).
  - now apply fold_min_lower.
  - now apply fold_max_upper.
Qed.

Lemma fold_min_app_le xs ys :
  le (fold_left min (xs ++ ys) inf) (fold_left min xs inf) = true.
Proof.
  rewrite fold_left_app.
  exact (proj1 (proj2 (proj2
    (fold_min ys (fold_left min xs inf) (proj1 (fold_min xs inf eq_refl)))))).
Qed.

Lemma fold_max_app_le xs ys :
  le (fold_left max xs neg_inf) (fold_left max (xs ++ ys) neg_inf) = true.
Proof.
  rewrite fold_left_app.
  exact (proj1 (proj2 (proj2
    (fold_max ys (fold_left max xs neg_inf)
       (proj1 (fold_max xs neg_inf eq_refl)))))).
Qed.

End ReductionEdges.

Lemma in_world_component (f : Vector -> float) world corner :
  In corner world -> In (f corner) (map f world).
Proof. apply in_map. Qed.

(** ** The marker lines *)

Lemma prefix_empty s : String.prefix "" s = true.
Proof. now destruct s. Qed.



Lemma substring_whole s : substring 0 (String.length s) s = s.
Proof. induction s as [|c s IH]; simpl; [reflexivity | now rewrite IH]. Qed.

Lemma drop_start_marker path name :
  drop 16 (marker "START_MESH_JSON" path name) = (path ++ " " ++ name)%string.
Proof.
  unfold drop, marker. simpl. rewrite Nat.sub_0_r. apply substring_whole.
Qed.

Lemma drop_end_marker path name :
  drop 14 (marker "END_MESH_JSON" path name) = (path ++ " " ++ name)%string.
Proof.
  unfold drop, marker. simpl. rewrite Nat.sub_0_r. apply substring_whole.
Qed.

(** ** More on [splitext] *)

Module OsPathEdges.
Import OsPath OsPathFacts.

Lemma rfind_none c p : ~ In c p -> rfind c p = (-1)%Z.
Proof.
  induction p as [|a r IH]; intros Hno; [reflexivity|].
  simpl. rewrite IH by (intros H; apply Hno; now right). simpl.
  destruct (Ascii.eqb a c) eqn:E; [|reflexivity].
  apply Ascii.eqb_eq in E. exfalso. apply Hno. now left.
Qed.

(** A path without [extsep] has no extension. *)
Lemma _splitext_no_dot p sep altsep ext_sep :
  ~ In ext_sep p -> _splitext p sep altsep ext_sep = (p, []).
Proof.
  intros Hno. unfold _splitext. rewrite (rfind_none ext_sep p Hno).
  assert (H : (match altsep with
               | Some a => Z.max (rfind sep p) (rfind a p)
               | None => rfind sep p
               end <? -1)%Z = false).
  { apply Z.ltb_ge. pose proof (rfind_lower sep p).
    destruct altsep; lia. }
  now rewrite H.
Qed.

(** The root of a path that is not empty is not empty. *)
Lemma _splitext_root_not_empty p sep altsep ext_sep root ext :
  _splitext p sep altsep ext_sep = (root, ext) -> p <> [] -> root <> [].
Proof.
  unfold _splitext.
  set (sepIndex := match altsep with
                   | Some a => Z.max (rfind sep p) (rfind a p)
                   | None => rfind sep p
                   end).
  destruct ((sepIndex <? rfind ext_sep p)%Z
            && has_name_before_dot ext_sep p (Z.to_nat (sepIndex + 1))
                 (Z.to_nat (rfind ext_sep p) - Z.to_nat (sepIndex + 1)))
    eqn:E.
  - intros [= <- <-] Hp. apply andb_prop in E as [_ E].
    destruct (Z.to_nat (rfind ext_sep p) - Z.to_nat (sepIndex + 1))
      as [|todo] eqn:Htodo; [discriminate|].
    destruct (Z.to_nat (rfind ext_sep p)) as [|k]; [lia|].
    destruct p; [contradiction | discriminate].
  - now intros [= <- <-].
Qed.

(** Without a backslash in the path, the two flavours of [os.path] split it
    alike. *)
Lemma _splitext_flavours p :
  ~ In "\"%char p ->
  _splitext p (sep ntpath) (altsep ntpath) extsep
  = _splitext p (sep posixpath) (altsep posixpath) extsep.
Proof.
  intros Hno. unfold _splitext. cbn [sep altsep].
  rewrite (rfind_none _ p Hno).
  pose proof (rfind_lower "/"%char p).
  now rewrite Z.max_r by lia.
Qed.

Lemma splitext_no_dot m p :
  ~ In "."%char (chars p) -> splitext m p = (p, ""%string).
Proof.
  intros Hno. unfold chars in Hno. unfold splitext.
  rewrite (_splitext_no_dot _ (sep m) (altsep m) extsep Hno). simpl.
  now rewrite string_of_list_ascii_of_string.
Qed.

Lemma splitext_root_not_empty m p :
  p <> ""%string -> fst (splitext m p) <> ""%string.
Proof.
  intros Hp. unfold splitext.
  destruct (_splitext (list_ascii_of_string p) (sep m) (altsep m) extsep)
    as [root ext] eqn:E. simpl.
  apply _splitext_root_not_empty in E.
  - destruct root; [contradiction | discriminate].
  - destruct p; [contradiction | discriminate].
Qed.

Lemma splitext_flavours p :
  ~ In "\"%char (chars p) -> splitext ntpath p = splitext posixpath p.
Proof.
  intros Hno. unfold chars in Hno. unfold splitext.
  now rewrite (_splitext_flavours _ Hno).
Qed.

End OsPathEdges.

Example splitext_backslash :
  OsPath.splitext OsPath.posixpath "a.b\c" = ("a", ".b\c")%string
  /\ OsPath.splitext OsPath.ntpath "a.b\c" = ("a.b\c", "")%string.
Proof. split; reflexivity. Qed.

Lemma texture_name_of_flavours mesh :
  (forall raw, active_image_name mesh = Some raw ->
               ~ In "\"%char (chars raw)) ->
  texture_name_of OsPath.ntpath mesh = texture_name_of OsPath.posixpath mesh.
Proof.
  rewrite !texture_name_of_outcome. unfold active_image_name.
  destruct (has_uv_textures mesh); [|reflexivity].
  destruct (Mesh.uv_textures_active (Object.data mesh)) as [active|];
    [|reflexivity].
  destruct (MeshTexturePolyLayer.data active) as [|poly rest]; [reflexivity|].
  destruct (MeshTexturePoly.image poly) as [image|]; [|reflexivity].
  simpl. intros Hno.
  now rewrite (OsPathEdges.splitext_flavours _ (Hno _ eq_refl)).
Qed.

(** * Properties of the export *)

(** ** Face and loop flattening *)

(** C1. For every mesh that is exported, the sum of
    [num_vertices_in_each_face] equals the length of
    [vertex_position_indices], which equals the length of
    [vertex_normal_indices]; when a texture is active the UV indices are
    present and have that same length. *)
Theorem index_consistency (os : OsPath.flavour) (mesh : Object.t)
        (doc : MeshJson) :
  build_mesh_json os mesh = inr doc ->
  list_sum (num_vertices_in_each_face doc)
  = List.length (vertex_position_indices doc)
  /\ List.length (vertex_position_indices doc)
     = List.length (vertex_normal_indices doc)
  /\ (texture_name doc <> None ->
      exists uv_indices,
        vertex_uv_indices doc = Some uv_indices
        /\ List.length uv_indices = list_sum (num_vertices_in_each_face doc))
  /\ (forall uv_indices,
        vertex_uv_indices doc = Some uv_indices ->
        List.length uv_indices = list_sum (num_vertices_in_each_face doc)).
Proof.
  intros Hrun.
  rewrite (doc_num_vertices_in_each_face Hrun),
    (doc_vertex_position_indices Hrun), (doc_vertex_normal_indices Hrun),
    (doc_vertex_uv_indices Hrun), length_flat_vertices,
    length_face_index_stream.
  repeat split.
  - intros Htex.
    destruct (has_uv_textures mesh) eqn:Huv.
    + eexists; split; [reflexivity|]. apply length_flat_loop_indices.
    + apply (doc_texture_name_none Hrun) in Huv. contradiction.
  - intros uv_indices.
    destruct (has_uv_textures mesh); [|discriminate].
    intros [= <-]. apply length_flat_loop_indices.
Qed.

Lemma index_consistency_witness :
  build_mesh_json OsPath.posixpath Samples.banner = inr Samples.banner_json
  /\ list_sum (num_vertices_in_each_face Samples.banner_json) = 7
  /\ List.length (vertex_position_indices Samples.banner_json) = 7
  /\ List.length (vertex_normal_indices Samples.banner_json) = 7.
Proof.
  assert (Hrun : build_mesh_json OsPath.posixpath Samples.banner
                 = inr Samples.banner_json) by reflexivity.
  destruct (index_consistency OsPath.posixpath Samples.banner _ Hrun)
    as (H1 & H2 & _).
  split; [exact Hrun|]. split; [reflexivity|].
  split; [rewrite <- H1 | rewrite <- H2, <- H1]; reflexivity.
Defined.

(** C2. For every mesh that is exported, [vertex_normals] holds the x, y, z
    components of the normal of each face, in that order, once per face
    (three entries per face), and the entry of [vertex_normal_indices] for
    loop [k] of face [i] is [i]. *)
Theorem face_normals_once_per_face (os : OsPath.flavour) (mesh : Object.t)
        (doc : MeshJson) :
  build_mesh_json os mesh = inr doc ->
  let faces := Mesh.polygons (Object.data mesh) in
  vertex_normals doc = flat_map normal_components faces
  /\ List.length (vertex_normals doc) = 3 * List.length faces
  /\ List.length (vertex_normal_indices doc)
     = List.length (vertex_position_indices doc)
  /\ forall i face k,
       nth_error faces i = Some face ->
       k < face_size face ->
       nth_error (vertex_normal_indices doc) (loop_offset faces i + k)
       = Some i.
Proof.
  intros Hrun faces. subst faces.
  rewrite (doc_vertex_normals Hrun), (doc_vertex_normal_indices Hrun),
    (doc_vertex_position_indices Hrun).
  repeat split.
  - apply length_flat_normals.
  - now rewrite length_face_index_stream, length_flat_vertices.
  - intros i face k Hi Hk.
    apply (face_index_stream_nth _ 0 _ _ _ Hi Hk).
Qed.

Lemma face_normals_once_per_face_witness :
  build_mesh_json OsPath.posixpath Samples.banner = inr Samples.banner_json
  /\ List.length (vertex_normals Samples.banner_json) = 6
  /\ nth_error (vertex_normal_indices Samples.banner_json) (4 + 2) = Some 1.
Proof.
  assert (Hrun : build_mesh_json OsPath.posixpath Samples.banner
                 = inr Samples.banner_json) by reflexivity.
  destruct (face_normals_once_per_face OsPath.posixpath Samples.banner _ Hrun)
    as (_ & Hlen & _ & Hnth).
  split; [exact Hrun|]. split; [exact Hlen|].
  apply (Hnth 1 (MeshPolygon.mk [2; 3; 4]%Z 4 Samples.up) 2);
    [reflexivity | unfold face_size; simpl; lia].
Defined.

(** C3, as the code has it. When a texture is active, the entries of
    [vertex_uv_indices] are the host's loop indices of the loops, face after
    face; they are 0, 1, ..., sum(num_vertices_in_each_face) - 1 when the
    host stores the loops of the faces consecutively from 0 in face order. *)
Theorem uv_indices_are_loop_indices (os : OsPath.flavour) (mesh : Object.t)
        (doc : MeshJson) :
  build_mesh_json os mesh = inr doc ->
  texture_name doc <> None ->
  let faces := Mesh.polygons (Object.data mesh) in
  vertex_uv_indices doc = Some (flat_map MeshPolygon.loop_indices faces)
  /\ (consecutive_loops 0 faces = true ->
      vertex_uv_indices doc
      = Some (seq 0 (list_sum (num_vertices_in_each_face doc)))).
Proof.
  intros Hrun Htex faces. subst faces.
  rewrite (doc_vertex_uv_indices Hrun), (doc_num_vertices_in_each_face Hrun).
  destruct (has_uv_textures mesh) eqn:Huv.
  - split; [reflexivity|]. intros Hc. now rewrite (consecutive_loops_seq _ _ Hc).
  - apply (doc_texture_name_none Hrun) in Huv. contradiction.
Qed.

Lemma uv_indices_are_loop_indices_witness :
  build_mesh_json OsPath.posixpath Samples.banner = inr Samples.banner_json
  /\ texture_name Samples.banner_json <> None
  /\ vertex_uv_indices Samples.banner_json = Some [0; 1; 2; 3; 4; 5; 6].
Proof.
  assert (Hrun : build_mesh_json OsPath.posixpath Samples.banner
                 = inr Samples.banner_json) by reflexivity.
  assert (Htex : texture_name Samples.banner_json <> None) by discriminate.
  split; [exact Hrun|]. split; [exact Htex|].
  apply (uv_indices_are_loop_indices OsPath.posixpath Samples.banner _ Hrun Htex).
  reflexivity.
Defined.

(** C3 as stated fails: with the loops of the second face stored before
    those of the first, a texture is active and the UV indices are
    3, 4, 5, 6, 0, 1, 2. *)
Lemma uv_indices_not_sequential :
  build_mesh_json OsPath.posixpath Samples.swapped_banner
  = inr Samples.swapped_banner_json
  /\ texture_name Samples.swapped_banner_json <> None
  /\ vertex_uv_indices Samples.swapped_banner_json
     <> Some (seq 0 (list_sum
                       (num_vertices_in_each_face Samples.swapped_banner_json))).
Proof.
  split; [reflexivity|]. split; discriminate.
Qed.

(** ** Conditional fields *)

(** C4. In the document of every exported mesh, the three group arrays are
    all null when [armature_name] is null and all present otherwise, and the
    two UV arrays are all null when [texture_name] is null and all present
    otherwise; [armature_name] is null exactly when the parent is no
    armature, [texture_name] exactly when the mesh has no UV texture, so the
    values that the loops had appended for an absent group are dropped. *)
Theorem optional_fields_all_or_none (os : OsPath.flavour) (mesh : Object.t)
        (doc : MeshJson) :
  build_mesh_json os mesh = inr doc ->
  ((armature_name doc = None
    /\ vertex_group_indices doc = None
    /\ vertex_group_weights doc = None
    /\ num_groups_for_each_vertex doc = None)
   \/ (exists name indices weights counts,
          armature_name doc = Some name
          /\ vertex_group_indices doc = Some indices
          /\ vertex_group_weights doc = Some weights
          /\ num_groups_for_each_vertex doc = Some counts))
  /\ ((texture_name doc = None
       /\ vertex_uvs doc = None
       /\ vertex_uv_indices doc = None)
      \/ (exists name uvs indices,
             texture_name doc = Some name
             /\ vertex_uvs doc = Some uvs
             /\ vertex_uv_indices doc = Some indices))
  /\ armature_name doc = armature_name_of mesh
  /\ (texture_name doc = None <-> has_uv_textures mesh = false).
Proof.
  intros Hrun.
  pose proof (doc_texture_name_none Hrun) as Htex.
  rewrite (doc_armature_name Hrun), (doc_vertex_group_indices Hrun),
    (doc_vertex_group_weights Hrun), (doc_num_groups_for_each_vertex Hrun),
    (doc_vertex_uvs Hrun), (doc_vertex_uv_indices Hrun).
  split; [|split; [|split; [reflexivity | exact Htex]]].
  - destruct (armature_name_of mesh) as [name|].
    + right. now repeat eexists.
    + left. now repeat split.
  - destruct (texture_name doc) as [name|], (has_uv_textures mesh).
    + right. now repeat eexists.
    + destruct Htex as [_ Htex]. now discriminate Htex.
    + destruct Htex as [Htex _]. now discriminate Htex.
    + left. now repeat split.
Qed.

Lemma optional_fields_all_or_none_witness :
  build_mesh_json OsPath.posixpath Samples.loose_banner
  = inr (mkMeshJson
           (vertex_positions Samples.banner_json)
           [4; 3] [0; 1; 3; 2; 2; 3; 4]%Z
           (vertex_normals Samples.banner_json)
           [0; 0; 0; 0; 1; 1; 1]
           (vertex_uvs Samples.banner_json) (Some [0; 1; 2; 3; 4; 5; 6])
           (Some "wood"%string) None None None None
           (bounding_box Samples.banner_json))
  /\ armature_name_of Samples.loose_banner = None
  /\ has_uv_textures Samples.loose_banner = true.
Proof.
  split; [reflexivity|].
  pose proof (optional_fields_all_or_none OsPath.posixpath
                Samples.loose_banner _ eq_refl) as (_ & _ & Harm & Htex).
  split; [symmetry; exact Harm|].
  destruct (has_uv_textures Samples.loose_banner); [reflexivity|].
  now destruct Htex as [_ Htex]; discriminate Htex.
Defined.

(** ** Skinning groups *)

(** C5. For every exported mesh with a parent armature, the three group
    arrays are present; [num_groups_for_each_vertex] holds the number of
    groups of each vertex in vertex order; the group indices and the weights
    of vertex [v] are copied unchanged, in the order of its groups, to the
    segment of that length which starts after the segments of the vertices
    before it; and the counts sum to the length of both flat arrays. *)
Theorem skinning_groups_are_csr (os : OsPath.flavour) (mesh : Object.t)
        (doc : MeshJson) :
  build_mesh_json os mesh = inr doc ->
  armature_name_of mesh <> None ->
  let verts := Mesh.vertices (Object.data mesh) in
  exists indices weights counts,
    vertex_group_indices doc = Some indices
    /\ vertex_group_weights doc = Some weights
    /\ num_groups_for_each_vertex doc = Some counts
    /\ counts = map group_count verts
    /\ list_sum counts = List.length indices
    /\ List.length indices = List.length weights
    /\ forall v vert,
         nth_error verts v = Some vert ->
         let start := list_sum (firstn v counts) in
         nth_error counts v = Some (List.length (MeshVertex.groups vert))
         /\ firstn (group_count vert) (skipn start indices)
            = map VertexGroupElement.group (MeshVertex.groups vert)
         /\ firstn (group_count vert) (skipn start weights)
            = map VertexGroupElement.weight (MeshVertex.groups vert).
Proof.
  intros Hrun Harm verts.
  rewrite (doc_vertex_group_indices Hrun), (doc_vertex_group_weights Hrun),
    (doc_num_groups_for_each_vertex Hrun).
  destruct (armature_name_of mesh) as [name|]; [clear Harm | contradiction].
  fold verts.
  exists (flat_map group_indices_of verts), (flat_map group_weights_of verts),
    (map group_count verts).
  repeat split.
  - rewrite length_flat_map_sum. f_equal. apply map_ext. intros vert.
    symmetry. apply group_indices_size.
  - rewrite !length_flat_map_sum. f_equal. apply map_ext. intros vert.
    now rewrite group_indices_size, group_weights_size.
  - exact (map_nth_error group_count v verts H).
  - rewrite firstn_map.
    rewrite (map_ext group_count
               (fun a => List.length (group_indices_of a)))
      by (intros a; symmetry; apply group_indices_size).
    rewrite <- (group_indices_size vert).
    exact (flat_map_segment group_indices_of verts v vert H).
  - rewrite firstn_map.
    rewrite (map_ext group_count
               (fun a => List.length (group_weights_of a)))
      by (intros a; symmetry; apply group_weights_size).
    rewrite <- (group_weights_size vert).
    exact (flat_map_segment group_weights_of verts v vert H).
Qed.

Lemma skinning_groups_are_csr_witness :
  build_mesh_json OsPath.posixpath Samples.banner = inr Samples.banner_json
  /\ armature_name_of Samples.banner <> None
  /\ exists indices weights,
       vertex_group_indices Samples.banner_json = Some indices
       /\ vertex_group_weights Samples.banner_json = Some weights
       /\ firstn 3 (skipn 4 indices) = [2; 0; 1]%Z
       /\ firstn 3 (skipn 4 weights)
          = [Samples.half; Samples.half; Samples.zero].
Proof.
  assert (Hrun : build_mesh_json OsPath.posixpath Samples.banner
                 = inr Samples.banner_json) by reflexivity.
  assert (Harm : armature_name_of Samples.banner <> None) by discriminate.
  split; [exact Hrun|]. split; [exact Harm|].
  destruct (skinning_groups_are_csr OsPath.posixpath Samples.banner _
              Hrun Harm)
    as (indices & weights & counts & Hi & Hw & _ & -> & _ & _ & Hseg).
  exists indices, weights. split; [exact Hi|]. split; [exact Hw|].
  destruct (Hseg 4 (Samples.skinned_vertex Samples.zero Samples.one
                      Samples.zero
                      [(2, Samples.half); (0, Samples.half);
                       (1, Samples.zero)]%Z) eq_refl)
    as (_ & Hgi & Hgw).
  split; [exact Hgi | exact Hgw].
Defined.

(** ** Bounding box *)

(** C6, as the code has it. For every exported mesh, [lower_left_front] and
    [upper_right_back] are the reductions with [min] from +inf and with [max]
    from -inf of the x, y and z of the bounding corners taken through
    [matrix_world]; on every axis, lower <= c <= upper holds for each such
    corner component [c] that is not NaN; and a mesh with the same corners in
    another order gets a bounding box that is numerically equal entry by
    entry, the entries differing at most in the sign of a zero. *)
Theorem bounding_box_is_min_max_reduction (os : OsPath.flavour)
        (mesh : Object.t) (doc : MeshJson) :
  build_mesh_json os mesh = inr doc ->
  let world := map (Object.matrix_world mesh) (Object.bound_box mesh) in
  let lower := lower_left_front (bounding_box doc) in
  let upper := upper_right_back (bounding_box doc) in
  lower = (fold_left PyFloat.min (map x world) PyFloat.inf,
           fold_left PyFloat.min (map y world) PyFloat.inf,
           fold_left PyFloat.min (map z world) PyFloat.inf)
  /\ upper = (fold_left PyFloat.max (map x world) PyFloat.neg_inf,
              fold_left PyFloat.max (map y world) PyFloat.neg_inf,
              fold_left PyFloat.max (map z world) PyFloat.neg_inf)
  /\ (forall corner,
        In corner world ->
        (PyFloat.is_nan (x corner) = false ->
         PyFloat.le (px lower) (x corner) = true
         /\ PyFloat.le (x corner) (px upper) = true)
        /\ (PyFloat.is_nan (y corner) = false ->
            PyFloat.le (py lower) (y corner) = true
            /\ PyFloat.le (y corner) (py upper) = true)
        /\ (PyFloat.is_nan (z corner) = false ->
            PyFloat.le (pz lower) (z corner) = true
            /\ PyFloat.le (z corner) (pz upper) = true))
  /\ (forall mesh' doc',
        build_mesh_json os mesh' = inr doc' ->
        Object.matrix_world mesh' = Object.matrix_world mesh ->
        Permutation (Object.bound_box mesh) (Object.bound_box mesh') ->
        let lower' := lower_left_front (bounding_box doc') in
        let upper' := upper_right_back (bounding_box doc') in
        same_point lower lower' = true /\ same_point upper upper' = true
        /\ agree lower lower' /\ agree upper upper').
Proof.
  intros Hrun world lower upper. subst lower upper.
  rewrite (doc_bounding_box Hrun), compute_bounding_box_closed_form.
  fold world. cbn [lower_left_front upper_right_back px py pz fst snd].
  split; [reflexivity|]. split; [reflexivity|]. split.
  - intros corner Hin.
    repeat split;
      (apply Reduction.fold_min_lower || apply Reduction.fold_max_upper);
      (reflexivity || assumption || now apply in_map).
  - intros mesh' doc' Hrun' Hworld Hperm.
    rewrite (doc_bounding_box Hrun'), compute_bounding_box_closed_form.
    rewrite Hworld.
    assert (Hp : Permutation world
                   (map (Object.matrix_world mesh) (Object.bound_box mesh')))
      by (now apply Permutation_map).
    unfold same_point, agree.
    cbn [lower_left_front upper_right_back px py pz fst snd].
    rewrite !andb_true_iff.
    repeat split;
      (apply Reduction.fold_min_permutation
       || apply Reduction.fold_max_permutation
       || apply Reduction.fold_min_permutation_agree
       || apply Reduction.fold_max_permutation_agree);
      (reflexivity || now apply Permutation_map).
Qed.

Lemma bounding_box_is_min_max_reduction_witness :
  build_mesh_json OsPath.posixpath Samples.quad = inr Samples.quad_json
  /\ build_mesh_json OsPath.posixpath Samples.reversed_quad
     = inr Samples.quad_json
  /\ Permutation (Object.bound_box Samples.quad)
       (Object.bound_box Samples.reversed_quad)
  /\ PyFloat.le (px (lower_left_front (bounding_box Samples.quad_json)))
       Samples.half = true
  /\ same_point (upper_right_back (bounding_box Samples.quad_json))
       (Samples.half, Samples.half, Samples.half) = true.
Proof.
  assert (Hrun : build_mesh_json OsPath.posixpath Samples.quad
                 = inr Samples.quad_json) by reflexivity.
  assert (Hrev : build_mesh_json OsPath.posixpath Samples.reversed_quad
                 = inr Samples.quad_json) by reflexivity.
  assert (Hperm : Permutation (Object.bound_box Samples.quad)
                    (Object.bound_box Samples.reversed_quad))
    by apply Permutation_rev.
  destruct (bounding_box_is_min_max_reduction OsPath.posixpath Samples.quad
              _ Hrun) as (_ & _ & Hbound & Horder).
  split; [exact Hrun|]. split; [exact Hrev|]. split; [exact Hperm|]. split.
  - destruct (Hbound (mkVector Samples.half Samples.half Samples.half))
      as (Hx & _); [simpl; tauto|].
    now destruct (Hx eq_refl).
  - now destruct (Horder Samples.reversed_quad _ Hrev eq_refl Hperm)
      as (_ & Hup & _).
Defined.

(** C6 as stated fails on a corner that has a NaN component: the reductions
    skip it, and neither lower <= NaN nor NaN <= upper holds. *)
Lemma bounding_box_skips_nan_corner :
  build_mesh_json OsPath.posixpath Samples.nan_quad = inr Samples.quad_json
  /\ In Samples.nan_corner
       (map (Object.matrix_world Samples.nan_quad)
          (Object.bound_box Samples.nan_quad))
  /\ PyFloat.le (px (lower_left_front (bounding_box Samples.quad_json)))
       (x Samples.nan_corner) = false
  /\ PyFloat.le (x Samples.nan_corner)
       (px (upper_right_back (bounding_box Samples.quad_json))) = false.
Proof.
  split; [reflexivity|]. split; [simpl; tauto|]. split; reflexivity.
Qed.

(** The order of the corners can show in the sign of a zero. *)
Example bounding_box_zero_sign_follows_order :
  Permutation Samples.zero_then_neg_zero Samples.neg_zero_then_zero
  /\ lower_left_front
       (compute_bounding_box
          (with_corners Samples.quad Samples.zero_then_neg_zero))
     = (Samples.zero, Samples.zero, Samples.zero)
  /\ lower_left_front
       (compute_bounding_box
          (with_corners Samples.quad Samples.neg_zero_then_zero))
     = (Samples.neg_zero, Samples.zero, Samples.zero).
Proof.
  split; [apply perm_swap|]. split; reflexivity.
Qed.

(** ** Framing *)



(** ** Error handling *)

(** C8, as the code has it. The number of bounding corners is not checked:
    with any list of corners in place of the eight, a run that raised
    raises the same exception, and a run that built a document builds the
    same document with the bounding box reduced from the corners that are
    there. *)
Theorem corner_count_is_not_checked (os : OsPath.flavour) (mesh : Object.t)
        (corners : list Vector) :
  (forall e,
      build_mesh_json os mesh = inl e ->
      build_mesh_json os (with_corners mesh corners) = inl e)
  /\ (forall doc,
        build_mesh_json os mesh = inr doc ->
        build_mesh_json os (with_corners mesh corners)
        = inr (set_bounding_box doc
                 (reduce_corners (map (Object.matrix_world mesh) corners)))).
Proof.
  rewrite (build_mesh_json_outcome os (with_corners mesh corners)),
    (build_mesh_json_outcome os mesh), texture_name_of_with_corners.
  rewrite (compute_bounding_box_reduce (with_corners mesh corners)).
  change (has_uv_textures (with_corners mesh corners))
    with (has_uv_textures mesh).
  change (lists_of (with_corners mesh corners)) with (lists_of mesh).
  cbn [with_corners Object.data Object.matrix_world Object.bound_box].
  change (armature_name_of (with_corners mesh corners))
    with (armature_name_of mesh).
  destruct (texture_name_of os mesh) as [e0|tn].
  - split; [trivial | discriminate].
  - destruct (has_uv_textures mesh);
      [destruct (Mesh.uv_layers_active (Object.data mesh))|];
      (split; [try discriminate; trivial | try discriminate]);
      now intros doc [= <-].
Qed.

Lemma corner_count_is_not_checked_witness :
  build_mesh_json OsPath.posixpath Samples.quad = inr Samples.quad_json
  /\ build_mesh_json OsPath.posixpath Samples.no_corner_quad
     = inr Samples.no_corner_json.
Proof.
  assert (Hrun : build_mesh_json OsPath.posixpath Samples.quad
                 = inr Samples.quad_json) by reflexivity.
  split; [exact Hrun|].
  exact (proj2 (corner_count_is_not_checked OsPath.posixpath Samples.quad [])
           _ Hrun).
Defined.

(** C8 as stated fails: a mesh with three bounding corners is exported, the
    box reduced from those three. *)
Lemma three_corners_are_exported :
  List.length (Object.bound_box Samples.three_corner_quad) = 3
  /\ build_mesh_json OsPath.posixpath Samples.three_corner_quad
     = inr Samples.three_corner_json
  /\ execute OsPath.posixpath Samples.dumps_text
       Samples.three_corner_context []
     = (["START_MESH_JSON /models/plane.blend Plane"; "{}";
         "END_MESH_JSON /models/plane.blend Plane"]%string,
        inr FINISHED).
Proof. repeat split. Qed.

(** C9, as the code has it. The vertex count of a face is not checked:
    with any list of faces in place of the mesh's own, a run that raised
    raises the same exception, and a run that built a document builds one
    whose [num_vertices_in_each_face] lists the sizes of the faces as they
    are and whose position and normal indices are flattened from them. *)
Theorem face_sizes_are_not_checked (os : OsPath.flavour) (mesh : Object.t)
        (faces : list MeshPolygon.t) :
  (forall e,
      build_mesh_json os mesh = inl e ->
      build_mesh_json os (with_polygons mesh faces) = inl e)
  /\ (forall doc,
        build_mesh_json os mesh = inr doc ->
        exists doc',
          build_mesh_json os (with_polygons mesh faces) = inr doc'
          /\ num_vertices_in_each_face doc' = map face_size faces
          /\ vertex_position_indices doc'
             = flat_map MeshPolygon.vertices faces
          /\ vertex_normal_indices doc' = face_index_stream 0 faces).
Proof.
  assert (Hsame : forall e,
             build_mesh_json os mesh = inl e ->
             build_mesh_json os (with_polygons mesh faces) = inl e).
  { intros e.
    rewrite (build_mesh_json_outcome os (with_polygons mesh faces)),
      (build_mesh_json_outcome os mesh), texture_name_of_with_polygons.
    change (has_uv_textures (with_polygons mesh faces))
      with (has_uv_textures mesh).
    cbn [with_polygons Object.data Mesh.uv_layers_active].
    destruct (texture_name_of os mesh) as [e0|tn]; [trivial|].
    destruct (has_uv_textures mesh);
      [destruct (Mesh.uv_layers_active (Object.data mesh))|];
      try discriminate; trivial. }
  split; [exact Hsame|].
  intros doc Hrun.
  destruct (build_mesh_json os (with_polygons mesh faces)) as [e|doc'] eqn:Hrun'.
  - exfalso.
    rewrite (build_mesh_json_outcome os (with_polygons mesh faces)),
      texture_name_of_with_polygons in Hrun'.
    rewrite (build_mesh_json_outcome os mesh) in Hrun.
    change (has_uv_textures (with_polygons mesh faces))
      with (has_uv_textures mesh) in Hrun'.
    cbn [with_polygons Object.data Mesh.uv_layers_active] in Hrun'.
    destruct (texture_name_of os mesh) as [e0|tn]; [discriminate|].
    destruct (has_uv_textures mesh);
      [destruct (Mesh.uv_layers_active (Object.data mesh))|];
      discriminate.
  - exists doc'. split; [reflexivity|].
    rewrite (doc_num_vertices_in_each_face Hrun'),
      (doc_vertex_position_indices Hrun'), (doc_vertex_normal_indices Hrun').
    now repeat split.
Qed.

Lemma face_sizes_are_not_checked_witness :
  build_mesh_json OsPath.posixpath Samples.quad = inr Samples.quad_json
  /\ exists doc',
       build_mesh_json OsPath.posixpath
         (with_polygons Samples.quad
            (Mesh.polygons (Object.data Samples.banner))) = inr doc'
       /\ num_vertices_in_each_face doc' = [4; 3].
Proof.
  assert (Hrun : build_mesh_json OsPath.posixpath Samples.quad
                 = inr Samples.quad_json) by reflexivity.
  split; [exact Hrun|].
  destruct (proj2 (face_sizes_are_not_checked OsPath.posixpath Samples.quad
                     (Mesh.polygons (Object.data Samples.banner)))
              _ Hrun) as (doc' & Hrun' & Hnum & _).
  exists doc'. split; [exact Hrun' | exact Hnum].
Defined.

(** C9 as stated fails: a mesh that mixes a quad with a triangle is
    exported, its index arrays filled. *)
Lemma mixed_faces_are_exported :
  map face_size (Mesh.polygons (Object.data Samples.banner)) = [4; 3]
  /\ build_mesh_json OsPath.posixpath Samples.banner
     = inr Samples.banner_json
  /\ vertex_position_indices Samples.banner_json = [0; 1; 3; 2; 2; 3; 4]%Z
  /\ execute OsPath.posixpath Samples.dumps_text Samples.banner_context []
     = (["START_MESH_JSON /models/banner.blend Banner"; "{}";
         "END_MESH_JSON /models/banner.blend Banner"]%string,
        inr FINISHED).
Proof. repeat split. Qed.

(** ** Texture name *)

(** C10. When a texture is active, the [texture_name] of the document is the
    root that [os.path.splitext] returns for the name of the active image:
    the name is that root followed by the extension, which is empty or a dot
    followed by characters other than a dot (wood.png gives wood). *)
Theorem texture_name_drops_extension (os : OsPath.flavour) (mesh : Object.t)
        (doc : MeshJson) :
  build_mesh_json os mesh = inr doc ->
  has_uv_textures mesh = true ->
  exists raw root ext,
    active_image_name mesh = Some raw
    /\ OsPath.splitext os raw = (root, ext)
    /\ texture_name doc = Some root
    /\ raw = (root ++ ext)%string
    /\ (ext = ""%string
        \/ exists e, ext = String "." e
                     /\ ~ In "."%char (list_ascii_of_string e)).
Proof.
  intros Hrun Huv.
  destruct (texture_name_of_active os mesh _ (doc_texture_name Hrun) Huv)
    as (raw & Hraw & Htn).
  destruct (OsPath.splitext os raw) as [root ext] eqn:Hsplit.
  exists raw, root, ext.
  destruct (OsPathFacts.splitext_parts _ _ _ _ Hsplit) as (Happ & Hext).
  repeat split; assumption.
Qed.

Lemma texture_name_drops_extension_witness :
  build_mesh_json OsPath.posixpath Samples.banner = inr Samples.banner_json
  /\ has_uv_textures Samples.banner = true
  /\ active_image_name Samples.banner = Some "wood.png"%string
  /\ texture_name Samples.banner_json = Some "wood"%string.
Proof.
  assert (Hrun : build_mesh_json OsPath.posixpath Samples.banner
                 = inr Samples.banner_json) by reflexivity.
  assert (Huv : has_uv_textures Samples.banner = true) by reflexivity.
  split; [exact Hrun|]. split; [exact Huv|].
  destruct (texture_name_drops_extension OsPath.posixpath Samples.banner _
              Hrun Huv) as (raw & root & ext & Hraw & Hsplit & Htn & _).
  vm_compute in Hraw. injection Hraw as <-.
  vm_compute in Hsplit. injection Hsplit as <- <-.
  split; [reflexivity | exact Htn].
Defined.

(** * Further properties of the export *)

(** ** Layout of the vertex and face arrays *)

(** X1. [vertex_positions] holds three floats per vertex: the x, y and z of
    vertex [v] stand at positions 3v, 3v+1 and 3v+2. *)
Theorem vertex_positions_layout (os : OsPath.flavour) (mesh : Object.t)
        (doc : MeshJson) :
  build_mesh_json os mesh = inr doc ->
  let verts := Mesh.vertices (Object.data mesh) in
  List.length (vertex_positions doc) = 3 * List.length verts
  /\ forall v vert,
       nth_error verts v = Some vert ->
       nth_error (vertex_positions doc) (3 * v)
       = Some (x (MeshVertex.co vert))
       /\ nth_error (vertex_positions doc) (3 * v + 1)
          = Some (y (MeshVertex.co vert))
       /\ nth_error (vertex_positions doc) (3 * v + 2)
          = Some (z (MeshVertex.co vert)).
Proof.
  intros Hrun verts. rewrite (doc_vertex_positions Hrun). fold verts.
  split; [apply length_flat_positions | apply position_components_nth].
Qed.

Lemma vertex_positions_layout_witness :
  build_mesh_json OsPath.posixpath Samples.banner = inr Samples.banner_json
  /\ List.length (vertex_positions Samples.banner_json) = 15
  /\ nth_error (vertex_positions Samples.banner_json) 13 = Some Samples.one.
Proof.
  assert (Hrun : build_mesh_json OsPath.posixpath Samples.banner
                 = inr Samples.banner_json) by reflexivity.
  destruct (vertex_positions_layout OsPath.posixpath Samples.banner _ Hrun)
    as (Hlen & Hnth).
  split; [exact Hrun|]. split; [exact Hlen|].
  exact (proj1 (proj2 (Hnth 4 (Samples.skinned_vertex Samples.zero
                                 Samples.one Samples.zero
                                 [(2, Samples.half); (0, Samples.half);
                                  (1, Samples.zero)]%Z) eq_refl))).
Defined.

(** X2. [num_vertices_in_each_face] has one entry per face, the number of
    vertices of that face, and the vertex indices of face [i] are copied
    unchanged to the segment of [vertex_position_indices] that starts where
    the segments of the faces before it end. *)
Theorem face_segments (os : OsPath.flavour) (mesh : Object.t)
        (doc : MeshJson) :
  build_mesh_json os mesh = inr doc ->
  let faces := Mesh.polygons (Object.data mesh) in
  List.length (num_vertices_in_each_face doc) = List.length faces
  /\ forall i face,
       nth_error faces i = Some face ->
       nth_error (num_vertices_in_each_face doc) i
       = Some (List.length (MeshPolygon.vertices face))
       /\ firstn (List.length (MeshPolygon.vertices face))
            (skipn (list_sum (firstn i (num_vertices_in_each_face doc)))
               (vertex_position_indices doc))
          = MeshPolygon.vertices face.
Proof.
  intros Hrun faces.
  rewrite (doc_num_vertices_in_each_face Hrun),
    (doc_vertex_position_indices Hrun). fold faces.
  split; [apply length_map|].
  intros i face Hi. split.
  - exact (map_nth_error face_size i faces Hi).
  - rewrite firstn_map.
    exact (flat_map_segment MeshPolygon.vertices faces i face Hi).
Qed.

Lemma face_segments_witness :
  build_mesh_json OsPath.posixpath Samples.banner = inr Samples.banner_json
  /\ firstn 3 (skipn 4 (vertex_position_indices Samples.banner_json))
     = [2; 3; 4]%Z.
Proof.
  assert (Hrun : build_mesh_json OsPath.posixpath Samples.banner
                 = inr Samples.banner_json) by reflexivity.
  destruct (face_segments OsPath.posixpath Samples.banner _ Hrun)
    as (_ & Hseg).
  split; [exact Hrun|].
  exact (proj2 (Hseg 1 (MeshPolygon.mk [2; 3; 4]%Z 4 Samples.up) eq_refl)).
Defined.

(** X3. Every entry of [vertex_normal_indices] is the index of a normal that
    [vertex_normals] holds in full: for an entry [n], the positions 3n, 3n+1
    and 3n+2 exist in [vertex_normals]. *)
Theorem normal_indices_in_range (os : OsPath.flavour) (mesh : Object.t)
        (doc : MeshJson) (n : nat) :
  build_mesh_json os mesh = inr doc ->
  In n (vertex_normal_indices doc) ->
  3 * n + 2 < List.length (vertex_normals doc).
Proof.
  intros Hrun.
  rewrite (doc_vertex_normal_indices Hrun), (doc_vertex_normals Hrun),
    length_flat_normals.
  intros Hin. apply face_index_stream_bounds in Hin. lia.
Qed.

Lemma normal_indices_in_range_witness :
  build_mesh_json OsPath.posixpath Samples.banner = inr Samples.banner_json
  /\ In 1 (vertex_normal_indices Samples.banner_json)
  /\ 3 * 1 + 2 < List.length (vertex_normals Samples.banner_json).
Proof.
  assert (Hrun : build_mesh_json OsPath.posixpath Samples.banner
                 = inr Samples.banner_json) by reflexivity.
  assert (Hin : In 1 (vertex_normal_indices Samples.banner_json))
    by (simpl; tauto).
  split; [exact Hrun|]. split; [exact Hin|].
  exact (normal_indices_in_range OsPath.posixpath Samples.banner _ 1
           Hrun Hin).
Defined.

(** X4. The vertex indices of the faces are copied without a check; when
    every face of the host's mesh refers to vertices that the mesh has, every
    entry [e] of [vertex_position_indices] is the index of a vertex whose
    three floats [vertex_positions] holds. *)
Theorem position_indices_in_range (os : OsPath.flavour) (mesh : Object.t)
        (doc : MeshJson) (e : Z) :
  build_mesh_json os mesh = inr doc ->
  faces_in_range (List.length (Mesh.vertices (Object.data mesh)))
    (Mesh.polygons (Object.data mesh)) = true ->
  In e (vertex_position_indices doc) ->
  (0 <= e)%Z
  /\ 3 * Z.to_nat e + 2 < List.length (vertex_positions doc).
Proof.
  intros Hrun Hrange.
  rewrite (doc_vertex_position_indices Hrun), (doc_vertex_positions Hrun),
    length_flat_positions.
  intros Hin. pose proof (faces_in_range_spec _ _ _ Hrange Hin). lia.
Qed.

Lemma position_indices_in_range_witness :
  build_mesh_json OsPath.posixpath Samples.banner = inr Samples.banner_json
  /\ In 4%Z (vertex_position_indices Samples.banner_json)
  /\ 3 * 4 + 2 < List.length (vertex_positions Samples.banner_json).
Proof.
  assert (Hrun : build_mesh_json OsPath.posixpath Samples.banner
                 = inr Samples.banner_json) by reflexivity.
  assert (Hin : In 4%Z (vertex_position_indices Samples.banner_json))
    by (simpl; tauto).
  split; [exact Hrun|]. split; [exact Hin|].
  exact (proj2 (position_indices_in_range OsPath.posixpath Samples.banner _
                  4%Z Hrun eq_refl Hin)).
Defined.

(** ** The UV arrays *)

(** X5. When the mesh has UV textures, [vertex_uvs] holds two floats per
    loop of the active UV layer, the x and y of loop [l] at positions 2l and
    2l+1; and when the loops of every face lie within that layer, every entry
    of [vertex_uv_indices] is the index of a pair that [vertex_uvs] holds. *)
Theorem uv_arrays_layout (os : OsPath.flavour) (mesh : Object.t)
        (doc : MeshJson) :
  build_mesh_json os mesh = inr doc ->
  has_uv_textures mesh = true ->
  exists layer uvs indices,
    Mesh.uv_layers_active (Object.data mesh) = Some layer
    /\ vertex_uvs doc = Some uvs
    /\ vertex_uv_indices doc = Some indices
    /\ List.length uvs = 2 * List.length (MeshUVLoopLayer.data layer)
    /\ (forall l loop,
          nth_error (MeshUVLoopLayer.data layer) l = Some loop ->
          nth_error uvs (2 * l) = Some (u_x (MeshUVLoop.uv loop))
          /\ nth_error uvs (2 * l + 1) = Some (u_y (MeshUVLoop.uv loop)))
    /\ (loops_in_layer (List.length (MeshUVLoopLayer.data layer))
          (Mesh.polygons (Object.data mesh)) = true ->
        forall i, In i indices -> 2 * i + 1 < List.length uvs).
Proof.
  intros Hrun Huv.
  destruct (built_with_uv_layer os mesh doc Hrun Huv) as (layer & Hlayer & Hloops).
  rewrite (doc_vertex_uvs Hrun), (doc_vertex_uv_indices Hrun), Huv, Hloops.
  exists layer. eexists. eexists.
  split; [exact Hlayer|]. split; [reflexivity|]. split; [reflexivity|].
  split; [apply length_flat_uvs|]. split; [apply uv_components_nth|].
  intros Hin i Hi. rewrite length_flat_uvs.
  pose proof (loops_in_layer_spec _ _ _ Hin Hi). lia.
Qed.

Lemma uv_arrays_layout_witness :
  build_mesh_json OsPath.posixpath Samples.banner = inr Samples.banner_json
  /\ has_uv_textures Samples.banner = true
  /\ exists uvs,
       vertex_uvs Samples.banner_json = Some uvs
       /\ List.length uvs = 14
       /\ nth_error uvs (2 * 6 + 1) = Some Samples.one.
Proof.
  assert (Hrun : build_mesh_json OsPath.posixpath Samples.banner
                 = inr Samples.banner_json) by reflexivity.
  assert (Huv : has_uv_textures Samples.banner = true) by reflexivity.
  split; [exact Hrun|]. split; [exact Huv|].
  destruct (uv_arrays_layout OsPath.posixpath Samples.banner _ Hrun Huv)
    as (layer & uvs & indices & Hlayer & Huvs & _ & Hlen & Hnth & _).
  injection Hlayer as <-.
  exists uvs. split; [exact Huvs|]. split; [exact Hlen|].
  exact (proj2 (Hnth 6 (Samples.uv_loop Samples.half Samples.one) eq_refl)).
Defined.

(** ** Exceptions *)

(** X6. Building the document raises in four cases only, all of them on a
    mesh with UV textures and all before anything is appended or printed:
    [AttributeError] when the texture collection has no active layer,
    [IndexError] when the active layer has no faces, [AttributeError] when
    its first face has no image, and [AttributeError] when the image is
    there and the UV layers have no active layer. *)
Theorem build_raises_iff (os : OsPath.flavour) (mesh : Object.t)
        (e : PyException) :
  build_mesh_json os mesh = inl e <->
  has_uv_textures mesh = true
  /\ ((Mesh.uv_textures_active (Object.data mesh) = None
       /\ e = AttributeError)
      \/ (exists active,
             Mesh.uv_textures_active (Object.data mesh) = Some active
             /\ MeshTexturePolyLayer.data active = []
             /\ e = IndexError)
      \/ (exists active poly rest,
             Mesh.uv_textures_active (Object.data mesh) = Some active
             /\ MeshTexturePolyLayer.data active = poly :: rest
             /\ MeshTexturePoly.image poly = None
             /\ e = AttributeError)
      \/ (exists raw,
             active_image_name mesh = Some raw
             /\ Mesh.uv_layers_active (Object.data mesh) = None
             /\ e = AttributeError)).
Proof.
  rewrite build_mesh_json_outcome, texture_name_of_outcome.
  unfold active_image_name.
  destruct (has_uv_textures mesh);
    [|split; [discriminate | intros (H & _); discriminate]].
  destruct (Mesh.uv_textures_active (Object.data mesh)) as [active|] eqn:Ha.
  - destruct (MeshTexturePolyLayer.data active) as [|poly rest] eqn:Hd.
    + split.
      * intros [= <-]. split; [reflexivity|]. right; left. now exists active.
      * intros (_ & Hcase). decompose_cases Hcase.
    + destruct (MeshTexturePoly.image poly) as [image|] eqn:Hi.
      * simpl.
        destruct (Mesh.uv_layers_active (Object.data mesh)) as [layer|] eqn:Hl.
        -- split; [discriminate|].
           intros (_ & Hcase). decompose_cases Hcase.
        -- split.
           ++ intros [= <-]. split; [reflexivity|].
              right; right; right. now exists (Image.name image).
           ++ intros (_ & Hcase). decompose_cases Hcase.
      * split.
        -- intros [= <-]. split; [reflexivity|].
           right; right; left. now exists active, poly, rest.
        -- intros (_ & Hcase). decompose_cases Hcase.
  - split.
    + intros [= <-]. split; [reflexivity|]. now left.
    + intros (_ & Hcase). decompose_cases Hcase.
Qed.

Lemma build_raises_iff_witness :
  build_mesh_json OsPath.posixpath MoreSamples.imageless_banner
  = inl AttributeError
  /\ build_mesh_json OsPath.posixpath MoreSamples.faceless_layer_banner
     = inl IndexError
  /\ build_mesh_json OsPath.posixpath MoreSamples.layerless_banner
     = inl AttributeError.
Proof.
  split; [|split].
  - apply (proj2 (build_raises_iff OsPath.posixpath
                    MoreSamples.imageless_banner AttributeError)).
    split; [reflexivity|]. right; right; left.
    now exists MoreSamples.bare_layer, (MeshTexturePoly.mk None),
      [MeshTexturePoly.mk (Some (Image.mk "wood.png"))].
  - reflexivity.
  - reflexivity.
Defined.

(** X7. A mesh without UV textures is always exported: building its document
    never raises, whatever else the mesh holds, and the document has no
    texture name and no UV arrays even when the mesh has an active UV layer
    with loops in it. *)
Theorem untextured_mesh_is_built (os : OsPath.flavour) (mesh : Object.t) :
  has_uv_textures mesh = false ->
  exists doc,
    build_mesh_json os mesh = inr doc
    /\ texture_name doc = None
    /\ vertex_uvs doc = None
    /\ vertex_uv_indices doc = None.
Proof.
  intros Huv.
  destruct (build_mesh_json os mesh) as [e|doc] eqn:Hrun.
  - rewrite build_mesh_json_outcome, texture_name_of_outcome, Huv in Hrun.
    discriminate.
  - exists doc. split; [reflexivity|].
    rewrite (doc_vertex_uvs Hrun), (doc_vertex_uv_indices Hrun), Huv.
    split; [|now split]. now apply (doc_texture_name_none Hrun).
Qed.

Lemma untextured_mesh_is_built_witness :
  has_uv_textures MoreSamples.untextured_quad = false
  /\ Mesh.uv_layers_active (Object.data MoreSamples.untextured_quad) <> None
  /\ build_mesh_json OsPath.posixpath MoreSamples.untextured_quad
     = inr Samples.quad_json.
Proof.
  assert (Huv : has_uv_textures MoreSamples.untextured_quad = false)
    by reflexivity.
  split; [exact Huv|]. split; [discriminate|].
  destruct (untextured_mesh_is_built OsPath.posixpath
              MoreSamples.untextured_quad Huv) as (doc & Hrun & _).
  reflexivity.
Defined.

(** ** More on the bounding box *)

(** X8. No entry of the bounding box is ever NaN, whatever the corners hold:
    each entry of [lower_left_front] is +inf or the component of a corner in
    world space, each entry of [upper_right_back] is -inf or such a
    component. *)
Theorem bounding_box_entries_are_attained (os : OsPath.flavour)
        (mesh : Object.t) (doc : MeshJson) :
  build_mesh_json os mesh = inr doc ->
  let world := map (Object.matrix_world mesh) (Object.bound_box mesh) in
  let lower := lower_left_front (bounding_box doc) in
  let upper := upper_right_back (bounding_box doc) in
  (PyFloat.is_nan (px lower) = false
   /\ (px lower = PyFloat.inf \/ In (px lower) (map x world)))
  /\ (PyFloat.is_nan (py lower) = false
      /\ (py lower = PyFloat.inf \/ In (py lower) (map y world)))
  /\ (PyFloat.is_nan (pz lower) = false
      /\ (pz lower = PyFloat.inf \/ In (pz lower) (map z world)))
  /\ (PyFloat.is_nan (px upper) = false
      /\ (px upper = PyFloat.neg_inf \/ In (px upper) (map x world)))
  /\ (PyFloat.is_nan (py upper) = false
      /\ (py upper = PyFloat.neg_inf \/ In (py upper) (map y world)))
  /\ (PyFloat.is_nan (pz upper) = false
      /\ (pz upper = PyFloat.neg_inf \/ In (pz upper) (map z world))).
Proof.
  intros Hrun world lower upper. subst lower upper.
  rewrite (doc_bounding_box Hrun), compute_bounding_box_closed_form.
  fold world. cbn [lower_left_front upper_right_back px py pz fst snd].
  repeat split;
    solve [ apply (Reduction.fold_min _ PyFloat.inf eq_refl)
          | apply (Reduction.fold_max _ PyFloat.neg_inf eq_refl) ].
Qed.

Lemma bounding_box_entries_are_attained_witness :
  build_mesh_json OsPath.posixpath Samples.nan_quad = inr Samples.quad_json
  /\ PyFloat.is_nan (px (upper_right_back (bounding_box Samples.quad_json)))
     = false.
Proof.
  assert (Hrun : build_mesh_json OsPath.posixpath Samples.nan_quad
                 = inr Samples.quad_json) by reflexivity.
  split; [exact Hrun|].
  exact (proj1 (proj1 (proj2 (proj2 (proj2
    (bounding_box_entries_are_attained OsPath.posixpath Samples.nan_quad _
       Hrun)))))).
Defined.

(** X9. On an axis where every corner component is NaN, and so for a mesh
    without corners, the box keeps its start values: +inf below and -inf
    above. On an axis where some corner component is not NaN, the lower
    entry is at most the upper entry. *)
Theorem bounding_box_axis_cases (os : OsPath.flavour) (mesh : Object.t)
        (doc : MeshJson) :
  build_mesh_json os mesh = inr doc ->
  let world := map (Object.matrix_world mesh) (Object.bound_box mesh) in
  let lower := lower_left_front (bounding_box doc) in
  let upper := upper_right_back (bounding_box doc) in
  ((forall c, In c world -> PyFloat.is_nan (x c) = true) ->
   px lower = PyFloat.inf /\ px upper = PyFloat.neg_inf)
  /\ ((forall c, In c world -> PyFloat.is_nan (y c) = true) ->
      py lower = PyFloat.inf /\ py upper = PyFloat.neg_inf)
  /\ ((forall c, In c world -> PyFloat.is_nan (z c) = true) ->
      pz lower = PyFloat.inf /\ pz upper = PyFloat.neg_inf)
  /\ (forall c, In c world ->
        (PyFloat.is_nan (x c) = false ->
         PyFloat.le (px lower) (px upper) = true)
        /\ (PyFloat.is_nan (y c) = false ->
            PyFloat.le (py lower) (py upper) = true)
        /\ (PyFloat.is_nan (z c) = false ->
            PyFloat.le (pz lower) (pz upper) = true)).
Proof.
  intros Hrun world lower upper. subst lower upper.
  rewrite (doc_bounding_box Hrun), compute_bounding_box_closed_form.
  fold world. cbn [lower_left_front upper_right_back px py pz fst snd].
  assert (Hnan : forall f : Vector -> float,
             (forall c, In c world -> PyFloat.is_nan (f c) = true) ->
             forall a, In a (map f world) -> PyFloat.is_nan a = true).
  { intros f Hall a Ha. apply in_map_iff in Ha as (c & <- & Hc).
    now apply Hall. }
  split; [|split; [|split]].
  - intros Hall. split;
      [apply ReductionEdges.fold_min_all_nan
      |apply ReductionEdges.fold_max_all_nan]; now apply Hnan.
  - intros Hall. split;
      [apply ReductionEdges.fold_min_all_nan
      |apply ReductionEdges.fold_max_all_nan]; now apply Hnan.
  - intros Hall. split;
      [apply ReductionEdges.fold_min_all_nan
      |apply ReductionEdges.fold_max_all_nan]; now apply Hnan.
  - intros c Hc. repeat split; intros Hc';
      eapply ReductionEdges.fold_min_le_fold_max;
      [apply in_world_component; exact Hc | exact Hc'
      |apply in_world_component; exact Hc | exact Hc'
      |apply in_world_component; exact Hc | exact Hc'].
Qed.

Lemma bounding_box_axis_cases_witness :
  build_mesh_json OsPath.posixpath Samples.no_corner_quad
  = inr Samples.no_corner_json
  /\ px (lower_left_front (bounding_box Samples.no_corner_json)) = PyFloat.inf
  /\ px (upper_right_back (bounding_box Samples.no_corner_json))
     = PyFloat.neg_inf.
Proof.
  assert (Hrun : build_mesh_json OsPath.posixpath Samples.no_corner_quad
                 = inr Samples.no_corner_json) by reflexivity.
  split; [exact Hrun|].
  apply (bounding_box_axis_cases OsPath.posixpath Samples.no_corner_quad _
           Hrun).
  intros c [].
Defined.

(** X10. Further corners can only widen the box: with corners added after
    those of the mesh, no lower entry gets larger and no upper entry gets
    smaller. *)
Theorem more_corners_widen_the_box (os : OsPath.flavour) (mesh : Object.t)
        (extra : list Vector) (doc doc' : MeshJson) :
  build_mesh_json os mesh = inr doc ->
  build_mesh_json os (with_corners mesh (Object.bound_box mesh ++ extra))
  = inr doc' ->
  let lower := lower_left_front (bounding_box doc) in
  let upper := upper_right_back (bounding_box doc) in
  let lower' := lower_left_front (bounding_box doc') in
  let upper' := upper_right_back (bounding_box doc') in
  PyFloat.le (px lower') (px lower) = true
  /\ PyFloat.le (py lower') (py lower) = true
  /\ PyFloat.le (pz lower') (pz lower) = true
  /\ PyFloat.le (px upper) (px upper') = true
  /\ PyFloat.le (py upper) (py upper') = true
  /\ PyFloat.le (pz upper) (pz upper') = true.
Proof.
  intros Hrun Hrun' lower upper lower' upper'.
  subst lower upper lower' upper'.
  rewrite (doc_bounding_box Hrun), (doc_bounding_box Hrun'),
    !compute_bounding_box_closed_form.
  cbn [with_corners Object.matrix_world Object.bound_box
       lower_left_front upper_right_back px py pz fst snd].
  rewrite !map_app.
  repeat split;
    (apply ReductionEdges.fold_min_app_le
     || apply ReductionEdges.fold_max_app_le).
Qed.

Lemma more_corners_widen_the_box_witness :
  build_mesh_json OsPath.posixpath Samples.quad = inr Samples.quad_json
  /\ build_mesh_json OsPath.posixpath
       (with_corners Samples.quad
          (Samples.cube_corners ++ [MoreSamples.far_corner]))
     = inr (set_bounding_box Samples.quad_json
              (mkBoundingBox
                 (Samples.neg_half, Samples.neg_half, Samples.neg_half)
                 (Samples.one, Samples.one, Samples.one)))
  /\ PyFloat.le Samples.half Samples.one = true.
Proof.
  assert (Hrun : build_mesh_json OsPath.posixpath Samples.quad
                 = inr Samples.quad_json) by reflexivity.
  split; [exact Hrun|]. split; [reflexivity|].
  exact (proj1 (proj2 (proj2 (proj2
    (more_corners_widen_the_box OsPath.posixpath Samples.quad
       [MoreSamples.far_corner] _ _ Hrun eq_refl))))).
Defined.

(** ** The marker lines *)

(** X11. In a run that finishes, the first line starts with the START tag
    and a space, the last with the END tag and a space, neither can be taken
    for the other, and what follows the tag is the same in both: the file
    path, a space and the name of the mesh. *)
Theorem marker_lines_are_tagged (os : OsPath.flavour)
        (json_dumps : MeshJson -> result string) (bpy : Bpy.t)
        (mesh : Object.t) (doc : MeshJson) (payload : string) :
  Bpy.active_object bpy = Some mesh ->
  build_mesh_json os mesh = inr doc ->
  json_dumps doc = inr payload ->
  exists first last,
    fst (execute os json_dumps bpy []) = [first; payload; last]
    /\ String.prefix "START_MESH_JSON " first = true
    /\ String.prefix "END_MESH_JSON " last = true
    /\ String.prefix "END_MESH_JSON " first = false
    /\ String.prefix "START_MESH_JSON " last = false
    /\ drop 16 first = (Bpy.filepath bpy ++ " " ++ Object.name mesh)%string
    /\ drop 14 last = drop 16 first.
Proof.
  intros Hm Hb Hd.
  rewrite (execute_finishes os json_dumps bpy mesh doc payload Hm Hb Hd).
  eexists. eexists. split; [reflexivity|].
  rewrite drop_start_marker, drop_end_marker.
  unfold marker. simpl. repeat split; apply prefix_empty.
Qed.

Lemma marker_lines_are_tagged_witness :
  Bpy.active_object Samples.banner_context = Some Samples.banner
  /\ build_mesh_json OsPath.posixpath Samples.banner = inr Samples.banner_json
  /\ exists first last,
       fst (execute OsPath.posixpath Samples.dumps_text
              Samples.banner_context [])
       = [first; "{}"%string; last]
       /\ drop 16 first = "/models/banner.blend Banner"%string
       /\ drop 14 last = drop 16 first.
Proof.
  assert (Hrun : build_mesh_json OsPath.posixpath Samples.banner
                 = inr Samples.banner_json) by reflexivity.
  split; [reflexivity|]. split; [exact Hrun|].
  destruct (marker_lines_are_tagged OsPath.posixpath Samples.dumps_text
              Samples.banner_context Samples.banner Samples.banner_json
              "{}"%string eq_refl Hrun eq_refl)
    as (first & last & Hout & _ & _ & _ & _ & Hfirst & Hlast).
  exists first, last. split; [exact Hout|]. split; [exact Hfirst|exact Hlast].
Defined.

(** ** More on the texture name *)

(** X12. An image name without a dot is exported as it is. *)
Theorem dotless_texture_name_is_kept (os : OsPath.flavour) (mesh : Object.t)
        (doc : MeshJson) (raw : string) :
  build_mesh_json os mesh = inr doc ->
  has_uv_textures mesh = true ->
  active_image_name mesh = Some raw ->
  ~ In "."%char (chars raw) ->
  texture_name doc = Some raw.
Proof.
  intros Hrun Huv Hraw Hno.
  destruct (texture_name_of_active os mesh _ (doc_texture_name Hrun) Huv)
    as (raw' & Hraw' & ->).
  rewrite Hraw in Hraw'. injection Hraw' as <-.
  now rewrite (OsPathEdges.splitext_no_dot os raw Hno).
Qed.

Lemma dotless_texture_name_is_kept_witness :
  build_mesh_json OsPath.posixpath (MoreSamples.renamed_banner "wood")
  = inr Samples.banner_json
  /\ active_image_name (MoreSamples.renamed_banner "wood")
     = Some "wood"%string
  /\ texture_name Samples.banner_json = Some "wood"%string.
Proof.
  assert (Hrun : build_mesh_json OsPath.posixpath
                   (MoreSamples.renamed_banner "wood")
                 = inr Samples.banner_json) by reflexivity.
  split; [exact Hrun|]. split; [reflexivity|].
  apply (dotless_texture_name_is_kept OsPath.posixpath
           (MoreSamples.renamed_banner "wood") _ "wood" Hrun eq_refl eq_refl).
  simpl. intuition discriminate.
Defined.

(** X13. The exported texture name is empty only when the image name is:
    the extension is never the whole of a name, so a name such as .png is
    exported whole. *)
Theorem texture_name_is_not_emptied (os : OsPath.flavour) (mesh : Object.t)
        (doc : MeshJson) (raw : string) :
  build_mesh_json os mesh = inr doc ->
  has_uv_textures mesh = true ->
  active_image_name mesh = Some raw ->
  raw <> ""%string ->
  texture_name doc <> Some ""%string.
Proof.
  intros Hrun Huv Hraw Hne.
  destruct (texture_name_of_active os mesh _ (doc_texture_name Hrun) Huv)
    as (raw' & Hraw' & ->).
  rewrite Hraw in Hraw'. injection Hraw' as <-.
  intros [= Hroot].
  exact (OsPathEdges.splitext_root_not_empty os raw Hne Hroot).
Qed.

Lemma texture_name_is_not_emptied_witness :
  exists doc,
    build_mesh_json OsPath.posixpath (MoreSamples.renamed_banner ".png")
    = inr doc
    /\ texture_name doc = Some ".png"%string
    /\ texture_name doc <> Some ""%string.
Proof.
  eexists. split; [reflexivity|]. split; [reflexivity|].
  apply (texture_name_is_not_emptied OsPath.posixpath
           (MoreSamples.renamed_banner ".png") _ ".png" eq_refl eq_refl
           eq_refl).
  discriminate.
Defined.

(** X14. Unless the name of the active image holds a backslash, the document
    is the same, and the run raises the same, whether [os.path] is the POSIX
    or the Windows one. *)
Theorem same_document_on_both_platforms (mesh : Object.t) :
  (forall raw, active_image_name mesh = Some raw ->
               ~ In "\"%char (chars raw)) ->
  build_mesh_json OsPath.ntpath mesh = build_mesh_json OsPath.posixpath mesh.
Proof.
  intros Hno.
  now rewrite !build_mesh_json_outcome, (texture_name_of_flavours mesh Hno).
Qed.

Lemma same_document_on_both_platforms_witness :
  active_image_name Samples.banner = Some "wood.png"%string
  /\ build_mesh_json OsPath.ntpath Samples.banner = inr Samples.banner_json.
Proof.
  split; [reflexivity|].
  rewrite (same_document_on_both_platforms Samples.banner).
  - reflexivity.
  - intros raw [= <-]. simpl. intuition discriminate.
Defined.
